(** * fishroom: rich-text rendering and sanitisation

    A shallow embedding of the rich-text renderers of the chat relay
    ([IRC.py], [DiscourseBabble.py], [telegram.py]) and of the escaping
    helpers of [xss.py], together with the properties the specification
    states about them.

    Python strings are modelled by [string]; one [ascii] stands for one
    character, so the model covers the strings whose code points are
    below 256.  Python integers are modelled by [Z]; a Python function
    that can raise returns an [option] (or a dedicated outcome type).

    The first part holds the definitions, the second part the lemmas. *)

From Stdlib Require Import String Ascii List ZArith Lia Bool DecimalString.
Import ListNotations.

Local Open Scope string_scope.
Local Open Scope Z_scope.

(** * Part I: definitions *)

(** ** Strings *)

Module Str.

(** [c in s] for a character [c]. *)
Fixpoint mem (c : ascii) (s : string) : bool :=
  match s with
  | EmptyString => false
  | String a r => Ascii.eqb a c || mem c r
  end.

(** [s.count(c)]. *)
Fixpoint count (c : ascii) (s : string) : nat :=
  match s with
  | EmptyString => O
  | String a r => ((if Ascii.eqb a c then 1 else 0) + count c r)%nat
  end.

(** [''.join(parts)]. *)
Definition join (parts : list string) : string :=
  fold_right String.append "" parts.

(** [''.join(parts)] when a part may have raised: [None] as soon as one
    part is [None]. *)
Fixpoint join_opt (parts : list (option string)) : option string :=
  match parts with
  | [] => Some ""
  | Some p :: rest =>
      match join_opt rest with
      | Some r => Some (p ++ r)
      | None => None
      end
  | None :: _ => None
  end.

(** The image of a string under a character-wise substitution. *)
Fixpoint subst_chars (f : ascii -> string) (s : string) : string :=
  match s with
  | EmptyString => EmptyString
  | String a r => f a ++ subst_chars f r
  end.

(** [s] split at the first occurrence of [c]: the text before it and the
    text after it. *)
Fixpoint break_at (c : ascii) (s : string) : option (string * string) :=
  match s with
  | EmptyString => None
  | String a r =>
      if Ascii.eqb a c then Some (EmptyString, r)
      else match break_at c r with
           | Some (p, q) => Some (String a p, q)
           | None => None
           end
  end.

(** The longest prefix of at most [n] characters that all satisfy [p]. *)
Fixpoint span_upto (n : nat) (p : ascii -> bool) (s : string) : string :=
  match n, s with
  | S k, String a r => if p a then String a (span_upto k p r) else EmptyString
  | _, _ => EmptyString
  end.

(** The longest prefix whose characters all satisfy [p]. *)
Definition span (p : ascii -> bool) (s : string) : string :=
  span_upto (String.length s) p s.

(** [s[n:]]. *)
Fixpoint drop (n : nat) (s : string) : string :=
  match n, s with
  | S k, String _ r => drop k r
  | _, _ => s
  end.

(** [str(n)] and ["{}".format(n)] for an integer [n]. *)
Definition of_int (n : Z) : string := NilZero.string_of_int (Z.to_int n).

Definition is_digit (c : ascii) : bool :=
  let n := nat_of_ascii c in (48 <=? n)%nat && (n <=? 57)%nat.

Definition is_hexdigit (c : ascii) : bool :=
  let n := nat_of_ascii c in
  is_digit c || ((65 <=? n)%nat && (n <=? 70)%nat)
             || ((97 <=? n)%nat && (n <=? 102)%nat).

(** Every character of [s] satisfies [p]. *)
Fixpoint forallb (p : ascii -> bool) (s : string) : bool :=
  match s with
  | EmptyString => true
  | String a r => p a && forallb p r
  end.

(** The double quote character. *)
Definition dquote : ascii := "034"%char.

(** The first character of [s] satisfies [p]. *)
Definition starts_with (p : ascii -> bool) (s : string) : bool :=
  match s with
  | EmptyString => false
  | String a _ => p a
  end.

End Str.

(** ** The fragment of Python's [re] and [str] that the sources use *)

Module Re.

(** A compiled pattern, seen from [re.sub]: applied to the text that
    starts at the current position it answers with the text handed to
    the replacement and the number of characters matched (at least one
    for every pattern below), or with [None] when the pattern does not
    match there. *)
Definition matcher := string -> option (string * nat).

Section Sub.

Variable pat : matcher.
Variable repl : string -> string.

(** [re.sub]: a single scan from the left; at a position where the
    pattern matches, the replacement is emitted and the scan resumes
    after the match ([skip] counts the characters of the current match
    that are still to be passed over); elsewhere the character is
    copied. *)
Fixpoint sub_from (skip : nat) (s : string) : string :=
  match s with
  | EmptyString => EmptyString
  | String a r =>
      match skip with
      | S k => sub_from k r
      | O =>
          match pat s with
          | Some (m, n) => repl m ++ sub_from (Nat.pred n) r
          | None => String a (sub_from O r)
          end
      end
  end.

Definition sub (s : string) : string := sub_from O s.

End Sub.

(** A pattern that denotes the single literal character [c]
    ([r'\*'], [r'#'], [r'\<'], ...). *)
Definition literal (c : ascii) : matcher := fun s =>
  match s with
  | String a _ => if Ascii.eqb a c then Some (String a "", 1%nat) else None
  | EmptyString => None
  end.

(** The pattern [r'<[^>]+>']: a ['<'], the longest non-empty run of
    characters other than ['>'], and a ['>']. *)
Definition tag : matcher := fun s =>
  match s with
  | String a r =>
      if Ascii.eqb a "<"%char then
        match Str.break_at ">"%char r with
        | Some (String b body, _) =>
            Some (String a (String b body ++ ">"),
                  (2 + String.length (String b body))%nat)
        | _ => None
        end
      else None
  | EmptyString => None
  end.

(** [s.replace(old, new)] for a one-character [old]. *)
Definition str_replace (old : ascii) (new : string) (s : string) : string :=
  sub (literal old) (fun _ => new) s.

End Re.

(** ** Python's [html] module *)

Module Html.

(** [html.escape(s, quote)]. *)
Definition escape (s : string) (quote : bool) : string :=
  let s := Re.str_replace "&"%char "&amp;" s in
  let s := Re.str_replace "<"%char "&lt;" s in
  let s := Re.str_replace ">"%char "&gt;" s in
  if quote then
    let s := Re.str_replace Str.dquote "&quot;" s in
    let s := Re.str_replace "'"%char "&#x27;" s in
    s
  else s.

(** The character class [[^\t\n\f <&#;]] of [html._charref]. *)
Definition name_char (c : ascii) : bool :=
  negb (existsb (Ascii.eqb c)
          ["009"%char; "010"%char; "012"%char; " "%char;
           "<"%char; "&"%char; "#"%char; ";"%char]).

(** An optional [';'] at the start of [s]. *)
Definition opt_semicolon (s : string) : string :=
  match s with
  | String a _ => if Ascii.eqb a ";"%char then ";" else ""
  | EmptyString => ""
  end.

(** One alternative of [_charref]: the fixed [prefix] already read, then
    a non-empty run [body] and an optional [';']. *)
Definition charref_alt (prefix body : string) (s : string) : option string :=
  match body with
  | EmptyString => None
  | _ =>
      let semi := opt_semicolon (Str.drop (String.length body) s) in
      Some (prefix ++ body ++ semi)
  end.

(** The group of [_charref] when it matches at the start of [s], where
    [s] is the text after the ['&']:
    [#[0-9]+;?], [#[xX][0-9a-fA-F]+;?] or [[^\t\n\f <&#;]{1,32};?]. *)
Definition charref_group (s : string) : option string :=
  match s with
  | String a r =>
      if Ascii.eqb a "#"%char then
        match charref_alt "#" (Str.span Str.is_digit r) r with
        | Some g => Some g
        | None =>
            match r with
            | String x r' =>
                if Ascii.eqb x "x"%char || Ascii.eqb x "X"%char then
                  charref_alt (String a (String x ""))
                              (Str.span Str.is_hexdigit r') r'
                else None
            | EmptyString => None
            end
        end
      else charref_alt "" (Str.span_upto 32 name_char s) s
  | EmptyString => None
  end.

(** [html._charref], the pattern
    [&(#[0-9]+;?|#[xX][0-9a-fA-F]+;?|[^\t\n\f <&#;]{1,32};?)]; the text
    handed to the replacement is group 1. *)
Definition charref : Re.matcher := fun s =>
  match s with
  | String a r =>
      if Ascii.eqb a "&"%char then
        match charref_group r with
        | Some g => Some (g, S (String.length g))
        | None => None
        end
      else None
  | EmptyString => None
  end.

Section Unescape.

(** [html._replace_charref] on the text of group 1: the lookup in the
    table [html.entities.html5] and the decoding of numeric references
    belong to the Python library and are left abstract. *)
Variable replace_charref : string -> string.

(** [html.unescape(s)]. *)
Definition unescape (s : string) : string :=
  if negb (Str.mem "&"%char s) then s
  else Re.sub charref replace_charref s.

End Unescape.

(** The behaviour of [html._replace_charref] on the references that
    [html.escape] produces (and on [apos;]); any other reference is left
    as it is.  It instantiates the abstract replacement in examples. *)
Definition replace_charref_basic (g : string) : string :=
  if String.eqb g "amp;" then "&"
  else if String.eqb g "lt;" then "<"
  else if String.eqb g "gt;" then ">"
  else if String.eqb g "quot;" then String Str.dquote ""
  else if String.eqb g "#x27;" then "'"
  else if String.eqb g "apos;" then "'"
  else "&" ++ g.

(** What is assumed of the library's table: the references written by
    [html.escape] decode to the characters they stand for. *)
Definition decodes_escapes (replace_charref : string -> string) : Prop :=
  replace_charref "amp;" = "&" /\
  replace_charref "lt;" = "<" /\
  replace_charref "gt;" = ">" /\
  replace_charref "quot;" = String Str.dquote "" /\
  replace_charref "#x27;" = "'".

(** The five characters that [html.escape] rewrites. *)
Definition meta (c : ascii) : bool :=
  existsb (Ascii.eqb c) ["&"%char; "<"%char; ">"%char; Str.dquote; "'"%char].

(** The character-wise reading of [html.escape(s, quote=True)]. *)
Definition escape_char (c : ascii) : string :=
  if Ascii.eqb c "&"%char then "&amp;"
  else if Ascii.eqb c "<"%char then "&lt;"
  else if Ascii.eqb c ">"%char then "&gt;"
  else if Ascii.eqb c Str.dquote then "&quot;"
  else if Ascii.eqb c "'"%char then "&#x27;"
  else String c "".

End Html.

(** ** [xss.py] *)

Module Xss.

(** [replace(text, rs)]: the substitutions of [rs] are applied one after
    the other.  Every pattern of the lists below denotes one literal
    character, and a replacement is given as [re] expands its template
    (the template [r'\\*'] is a backslash followed by a star). *)
Definition replace (text : string) (rs : list (ascii * string)) : string :=
  fold_left (fun text r => Re.sub (Re.literal (fst r)) (fun _ => snd r) text)
            rs text.

Definition replacements : list (ascii * string) :=
  [ ("*"%char, "\*");
    ("#"%char, "\#");
    ("/"%char, "\/");
    ("("%char, "\(");
    (")"%char, "\)");
    ("["%char, "\[");
    ("]"%char, "\]");
    ("<"%char, "&lt;");
    (">"%char, "&gt;");
    ("_"%char, "\_");
    ("`"%char, "\`") ].

Definition md_escape (text : string) : string :=
  replace text replacements.

(** [re.sub(r'<[^>]+>', '', message)]. *)
Definition strip_tags (message : string) : string :=
  Re.sub Re.tag (fun _ => "") message.

Definition cooked_unescape (replace_charref : string -> string)
  (message : string) : string :=
  Html.unescape replace_charref (strip_tags message).

(** The character-wise reading of [md_escape]. *)
Definition md_escape_char (c : ascii) : string :=
  if existsb (Ascii.eqb c)
       ["*"%char; "#"%char; "/"%char; "("%char; ")"%char;
        "["%char; "]"%char; "_"%char; "`"%char]
  then String "\"%char (String c "")
  else if Ascii.eqb c "<"%char then "&lt;"
  else if Ascii.eqb c ">"%char then "&gt;"
  else String c "".

(** A text that [r'<[^>]+>'] matches as a whole. *)
Definition is_tag (t : string) : Prop :=
  exists body, t = "<" ++ body ++ ">" /\ body <> "" /\ Str.mem ">"%char body = false.

(** [Erased s t]: [t] is [s] with some substrings that are tags taken
    out. *)
Inductive Erased : string -> string -> Prop :=
| Erased_nil : Erased "" ""
| Erased_keep a s t : Erased s t -> Erased (String a s) (String a t)
| Erased_tag tg s t : is_tag tg -> Erased s t -> Erased (tg ++ s) t.

(** No substring of [s] is a tag. *)
Definition tag_free (s : string) : Prop :=
  forall pre tg post, is_tag tg -> s <> pre ++ tg ++ post.

End Xss.

(** ** [models.py]: the style model *)

Module Models.

(** Modelled from the spec: [models.py] is missing; [Color] is the pair
    of a foreground palette index and an optional background index. *)
Record Color := mkColor { fg : Z; bg : option Z }.

(** Modelled from the spec: [models.py] is missing; a [TextStyle] has the
    three flags and an optional colour. *)
Record TextStyle := mkTextStyle {
  color : option Color;
  italic : bool;
  bold : bool;
  underline : bool
}.

(** [TextStyle()]. *)
Definition normal : TextStyle := mkTextStyle None false false false.

Definition is_bold (ts : TextStyle) : bool := bold ts.
Definition is_italic (ts : TextStyle) : bool := italic ts.
Definition is_underline (ts : TextStyle) : bool := underline ts.

Definition has_color (ts : TextStyle) : bool :=
  match color ts with Some _ => true | None => false end.

(** Modelled from the spec: true iff no bold, italic or underline and no
    colour. *)
Definition is_normal (ts : TextStyle) : bool :=
  negb (bold ts) && negb (italic ts) && negb (underline ts)
  && negb (has_color ts).

(** A palette index is one of the 17 entries [0..16]. *)
Definition valid_index (i : Z) : bool := (0 <=? i) && (i <=? 16).

Definition valid_color (c : Color) : bool :=
  valid_index (fg c) &&
  match bg c with Some b => valid_index b | None => true end.

Definition valid_style (ts : TextStyle) : bool :=
  match color ts with Some c => valid_color c | None => true end.

(** Modelled from the spec: the construction of a [TextStyle], missing
    with [models.py]; an index outside [0..16] is rejected ([None] stands
    for the raised [InvalidColor]). *)
Definition TextStyle_init (color : option Color) (italic bold underline : bool)
  : option TextStyle :=
  let ts := mkTextStyle color italic bold underline in
  if valid_style ts then Some ts else None.

(** Modelled from the spec: a [RichText] is the ordered sequence of its
    runs. *)
Definition RichText := list (TextStyle * string).

(** Modelled from the spec: [toPlain()] concatenates the run texts. *)
Definition toPlain (rt : RichText) : string := Str.join (map snd rt).

Inductive ChannelType := ChanIRC | ChanTelegram | ChanXMPP | ChanDiscourseBabble.

Inductive MessageType :=
| Text | Command | Photo | Sticker | Video | Animation | Audio | File
| Location | Event.

(** Modelled from the spec: the attributes of a [Message] that the IRC
    adapter sets. *)
Record Message := mkMessage {
  channel : ChannelType;
  sender : string;
  receiver : string;
  content : string;
  mtype : MessageType;
  date : string;
  time : string;
  rich_text : option RichText
}.

End Models.

(** ** [textformat.py]: the inbound parser *)

Module IRCCtrl.

(** Modelled from the spec: [textformat.py] is missing; the control
    characters of the IRC format for bold, colour, italic, underline and
    reset. *)
Definition BOLD : ascii := "002"%char.
Definition COLOR : ascii := "003"%char.
Definition ITALIC : ascii := "029"%char.
Definition UNDERLINE : ascii := "031"%char.
Definition RESET : ascii := "015"%char.

Definition is_ctrl (c : ascii) : bool :=
  existsb (Ascii.eqb c) [BOLD; COLOR; ITALIC; UNDERLINE; RESET].

End IRCCtrl.

Module TextFormatter.
Import Models.

Definition toggle_bold (ts : TextStyle) : TextStyle :=
  mkTextStyle (color ts) (italic ts) (negb (bold ts)) (underline ts).

Definition toggle_italic (ts : TextStyle) : TextStyle :=
  mkTextStyle (color ts) (negb (italic ts)) (bold ts) (underline ts).

Definition toggle_underline (ts : TextStyle) : TextStyle :=
  mkTextStyle (color ts) (italic ts) (bold ts) (negb (underline ts)).

Definition set_color (ts : TextStyle) (c : Color) : TextStyle :=
  mkTextStyle (Some c) (italic ts) (bold ts) (underline ts).

(** The value of a run of decimal digits. *)
Fixpoint digits_value (acc : Z) (s : string) : Z :=
  match s with
  | EmptyString => acc
  | String a r => digits_value (10 * acc + (Z.of_nat (nat_of_ascii a) - 48)) r
  end.

(** A group of one or two decimal digits at the start of [s] that names a
    palette entry: its value and its length. *)
Definition index_group (s : string) : option (Z * nat) :=
  let ds := Str.span_upto 2 Str.is_digit s in
  match ds with
  | EmptyString => None
  | _ =>
      let v := digits_value 0 ds in
      if valid_index v then Some (v, String.length ds) else None
  end.

(** Modelled from the spec: the arguments that follow a colour control
    character, a foreground group and an optional [,background] group;
    the answer is the colour and the number of characters read.  [None]
    is a malformed sequence. *)
Definition color_args (s : string) : option (Color * nat) :=
  match index_group s with
  | None => None
  | Some (f, n) =>
      match Str.drop n s with
      | String a r =>
          if Ascii.eqb a ","%char then
            match index_group r with
            | Some (b, m) => Some (mkColor f (Some b), (n + 1 + m)%nat)
            | None => Some (mkColor f None, n)
            end
          else Some (mkColor f None, n)
      | EmptyString => Some (mkColor f None, n)
      end
  end.

(** A run boundary: the open run is closed, and kept when it has text. *)
Definition flush (cur : TextStyle) (buf : string) (rest : RichText) : RichText :=
  match buf with
  | EmptyString => rest
  | _ => (cur, buf) :: rest
  end.

(** Modelled from the spec: the scan of [parseIRC], [textformat.py] being
    missing.  [cur] is the current style and [buf] the text of the open
    run; a control character changes [cur] and starts a new run, a reset
    returns to the normal style, the arguments of a colour code are
    passed over ([skip] counts those still to pass), a malformed colour
    code leaves what follows it as text, and any other character is
    appended to the open run. *)
Fixpoint scan (skip : nat) (cur : TextStyle) (buf : string) (s : string)
  : RichText :=
  match s with
  | EmptyString => flush cur buf []
  | String a r =>
      match skip with
      | S k => scan k cur buf r
      | O =>
          if Ascii.eqb a IRCCtrl.BOLD then
            flush cur buf (scan O (toggle_bold cur) "" r)
          else if Ascii.eqb a IRCCtrl.ITALIC then
            flush cur buf (scan O (toggle_italic cur) "" r)
          else if Ascii.eqb a IRCCtrl.UNDERLINE then
            flush cur buf (scan O (toggle_underline cur) "" r)
          else if Ascii.eqb a IRCCtrl.RESET then
            flush cur buf (scan O normal "" r)
          else if Ascii.eqb a IRCCtrl.COLOR then
            match color_args r with
            | Some (c, n) => flush cur buf (scan n (set_color cur c) "" r)
            | None => scan O cur buf r
            end
          else scan O cur (buf ++ String a "") r
      end
  end.

(** Modelled from the spec: [TextFormatter.parseIRC]; a text without
    control codes yields exactly one run of normal style, also when it
    is empty. *)
Definition parseIRC (text : string) : RichText :=
  match scan O normal "" text with
  | [] => [(normal, "")]
  | rt => rt
  end.

(** Modelled from the spec: the original string with its control
    sequences taken out ([skip] as in [scan]). *)
Fixpoint strip_controls (skip : nat) (s : string) : string :=
  match s with
  | EmptyString => EmptyString
  | String a r =>
      match skip with
      | S k => strip_controls k r
      | O =>
          if Ascii.eqb a IRCCtrl.COLOR then
            match color_args r with
            | Some (_, n) => strip_controls n r
            | None => strip_controls O r
            end
          else if IRCCtrl.is_ctrl a then strip_controls O r
          else String a (strip_controls O r)
      end
  end.

End TextFormatter.

(** ** [IRC.py] *)

Module IRC.
Import Models.

(** The truth value of [ts.color.bg]: an absent background and the
    index 0 are both false. *)
Definition bg_truthy (c : Color) : option Z :=
  match bg c with
  | Some b => if b =? 0 then None else Some b
  | None => None
  end.

(** The list [ctrl] built for a run that is not normal. *)
Definition ctrl (ts : TextStyle) : list string :=
  (if is_bold ts then [String IRCCtrl.BOLD ""] else []) ++
  (if is_italic ts then [String IRCCtrl.ITALIC ""] else []) ++
  (if is_underline ts then [String IRCCtrl.UNDERLINE ""] else []) ++
  match color ts with
  | Some c =>
      [String IRCCtrl.COLOR "";
       match bg_truthy c with
       | Some b => Str.of_int (fg c) ++ "," ++ Str.of_int b
       | None => Str.of_int (fg c)
       end]
  | None => []
  end.

(** The colour arguments that [ctrl] holds after the colour character. *)
Definition color_code (c : Color) : string :=
  match bg_truthy c with
  | Some b => Str.of_int (fg c) ++ "," ++ Str.of_int b
  | None => Str.of_int (fg c)
  end.

(** [''.join(ctrl)], part by part: the flags, then the colour code. *)
Definition ctrl_flags (ts : TextStyle) : string :=
  (if is_bold ts then String IRCCtrl.BOLD "" else "") ++
  (if is_italic ts then String IRCCtrl.ITALIC "" else "") ++
  (if is_underline ts then String IRCCtrl.UNDERLINE "" else "").

Definition ctrl_color (ts : TextStyle) : string :=
  match color ts with
  | Some c => String IRCCtrl.COLOR (color_code c)
  | None => ""
  end.

(** What one iteration of the loop of [formatRichText] adds to
    [formated_text]. *)
Definition format_run (run : TextStyle * string) : string :=
  let '(ts, text) := run in
  match text with
  | EmptyString => ""
  | _ =>
      if is_normal ts then text
      else Str.join (ctrl ts) ++ text ++ String IRCCtrl.RESET ""
  end.

(** [IRCHandle.formatRichText]. *)
Definition formatRichText (rich_text : RichText) : string :=
  fold_left (fun formated_text run => formated_text ++ format_run run)
            rich_text "".

(** A run that the control-code format can carry unchanged: its text
    holds no control character, its colour indices are palette entries
    and, when it has a colour, its text does not begin with a decimal
    digit or a comma (which would read as part of the colour code). *)
Definition round_trip_safe (run : TextStyle * string) : bool :=
  let '(ts, text) := run in
  Str.forallb (fun c => negb (IRCCtrl.is_ctrl c)) text
  && valid_style ts
  && (negb (has_color ts)
      || negb (Str.starts_with
                 (fun c => Str.is_digit c || Ascii.eqb c ","%char) text)).

(** An event of the IRC client library, as far as the handlers read it. *)
Record Event := mkEvent {
  source : string;
  target : string;
  arguments : list string
}.

(** What a handler does with an event. *)
Inductive Outcome :=
| Raised                 (* an exception leaves the handler *)
| Ignored                (* the handler returns without a message *)
| Sent (msg : Message).  (* [send_to_bus] is called with the message *)

Section Handlers.

(** The black list of the handle, [BaseBotInstance.is_cmd] (its module is
    missing) and the clock read by [get_now_date_time]. *)
Variable blacklist : list string.
Variable is_cmd : string -> bool.
Variable now : string * string.

(** [IRCHandle.on_privmsg]. *)
Definition on_privmsg (event : Event) : Outcome :=
  match Str.break_at "!"%char (source event) with
  | None => Raised
  | Some (irc_nick, _) =>
      if existsb (String.eqb irc_nick) blacklist then Ignored
      else
        match arguments event with
        | [] => Raised
        | arg0 :: _ =>
            let rich_text := TextFormatter.parseIRC arg0 in
            let content := toPlain rich_text in
            let rich_text :=
              match rich_text with
              | [(ts, _)] => if is_normal ts then None else Some rich_text
              | _ => Some rich_text
              end in
            let mtype := if is_cmd content then Command else Text in
            Sent (mkMessage ChanIRC irc_nick (target event) content mtype
                            (fst now) (snd now) rich_text)
        end
  end.

(** [IRCHandle.on_pubmsg]. *)
Definition on_pubmsg (event : Event) : Outcome := on_privmsg event.

End Handlers.

End IRC.

(** ** [DiscourseBabble.py] *)

Module DiscourseBabble.
Import Models.

Definition IRC_COLOR_RGB : list string :=
  [ "#ffffff"; "#000000"; "#00007f"; "#009300"; "#ff0000"; "#7f0000";
    "#9c009c"; "#fc7f00"; "#ffff00"; "#00fc00"; "#009300"; "#00ffff";
    "#0000fc"; "#ff00ff"; "#7f7f7f"; "#d2d2d2"; "#888" ].

(** [l[i]]: a negative index counts from the end, and an index outside
    the list raises [IndexError] ([None]). *)
Definition getitem {A : Type} (l : list A) (i : Z) : option A :=
  let n := Z.of_nat (List.length l) in
  if (0 <=? i) && (i <? n) then nth_error l (Z.to_nat i)
  else if (- n <=? i) && (i <? 0) then nth_error l (Z.to_nat (n + i))
  else None.

Section Run.

Variable ts : TextStyle.

Definition bold (text : string) : string :=
  if negb (is_bold ts) then text else "[b]" ++ text ++ "[/b]".

Definition italic (text : string) : string :=
  if negb (is_italic ts) then text else "[i]" ++ text ++ "[/i]".

Definition underline (text : string) : string :=
  if negb (is_underline ts) then text else "[u]" ++ text ++ "[/u]".

Definition fgcolor (text : string) (color : Z) : option string :=
  match getitem IRC_COLOR_RGB color with
  | Some rgb => Some ("[color=" ++ rgb ++ "]" ++ text ++ "[/color]")
  | None => None
  end.

Definition bgcolor (text : string) (color : Z) : option string :=
  match getitem IRC_COLOR_RGB color with
  | Some rgb => Some ("[bgcolor=" ++ rgb ++ "]" ++ text ++ "[/bgcolor]")
  | None => None
  end.

Definition color (text : string) : option string :=
  match Models.color ts with
  | None => Some text
  | Some c =>
      match IRC.bg_truthy c with
      | Some b =>
          match fgcolor text (fg c) with
          | Some inner => bgcolor inner b
          | None => None
          end
      | None => fgcolor text (fg c)
      end
  end.

(** [underline(italic(bold(color(text))))]. *)
Definition styled (text : string) : option string :=
  match color text with
  | Some c => Some (underline (italic (bold c)))
  | None => None
  end.

End Run.

(** What one iteration of the loop of [formatRichText] adds to
    [formated_text]; [None] when a palette lookup raises. *)
Definition format_run (run : TextStyle * string) : option string :=
  let '(ts, text) := run in
  match text with
  | EmptyString => Some ""
  | _ => if is_normal ts then Some text else styled ts text
  end.

(** [DiscourseBabbleHandle.formatRichText]. *)
Definition formatRichText (rich_text : RichText) : option string :=
  fold_left (fun formated_text run =>
               match formated_text with
               | Some acc =>
                   match format_run run with
                   | Some out => Some (acc ++ out)
                   | None => None
                   end
               | None => None
               end)
            rich_text (Some "").


End DiscourseBabble.

(** ** [telegram.py] *)

Module Telegram.
Import Models.

(** What one iteration of the loop of [formatRichText] adds to [md]. *)
Definition format_run (escape : bool) (run : TextStyle * string) : string :=
  let '(ts, text) := run in
  let text := if escape then Html.escape text true else text in
  if is_bold ts then "<b>" ++ text ++ "</b>"
  else if is_italic ts then "<i>" ++ text ++ "</i>"
  else text.

(** [Telegram.formatRichText]; [escape] defaults to [True]. *)
Definition formatRichText (rich_text : RichText) (escape : bool) : string :=
  fold_left (fun md run => md ++ format_run escape run) rich_text "".

(** [Telegram.msg_tmpl] applied to the sender and the content. *)
Definition msg_tmpl (sender : option string) (content : string) : string :=
  match sender with
  | None => content
  | Some sender => "<b>" ++ sender ++ "</b>" ++ String "010"%char content
  end.

(** The ['text'] field that [Telegram.send_msg] posts.  [content] is the
    content after the nickname substitutions; a [RichText] is true when
    it is present and has a run. *)
Definition send_msg_text (content : string) (sender : option string)
  (escape : bool) (rich_text : option RichText) : string :=
  let content :=
    match rich_text with
    | Some (run :: rt) => formatRichText (run :: rt) escape
    | _ => if escape then Html.escape content true else content
    end in
  msg_tmpl sender content.

(** The wrapper of a run: bold wins over italic, and nothing else is
    rendered. *)
Definition wrap (ts : TextStyle) (text : string) : string :=
  if is_bold ts then "<b>" ++ text ++ "</b>"
  else if is_italic ts then "<i>" ++ text ++ "</i>"
  else text.

(** The number of runs that get a wrapper. *)
Definition wrapped_runs (rt : RichText) : nat :=
  List.length (filter (fun run => is_bold (fst run) || is_italic (fst run)) rt).

End Telegram.

(** ** Outgoing lines: [send_msg] and [rich_message] *)

Module Py.

(** Sequencing of calls that may raise. *)
Definition bind {A B : Type} (x : option A) (f : A -> option B) : option B :=
  match x with
  | Some a => f a
  | None => None
  end.

(** The truth value of an optional string: [None] and the empty string
    are false. *)
Definition truthy (s : option string) : bool :=
  match s with
  | Some (String _ _) => true
  | _ => false
  end.

(** [sum([ord(i) for i in s])]. *)
Definition ord_sum (s : string) : Z :=
  fold_right Z.add 0
    (map (fun c => Z.of_nat (nat_of_ascii c)) (list_ascii_of_string s)).

(** [text[:n] + '...'] when [text] has more than [n] characters, [text]
    itself otherwise. *)
Definition shorten (n : nat) (text : string) : string :=
  if (n <? String.length text)%nat then String.substring 0 n text ++ "..."
  else text.

End Py.

Module IRCSend.
Import Models.

Definition color_avail : list Z := [2; 3; 4; 5; 6; 7; 10; 12; 13].

(** The foreground number that [send_msg] computes for a sender:
    [color_avail[sum([ord(i) for i in sender]) % len(color_avail)]]. *)
Definition foreground_num (sender : string) : option Z :=
  DiscourseBabble.getitem color_avail
    (Py.ord_sum sender mod Z.of_nat (List.length color_avail)).

(** The variable [color] of [send_msg]: a colour for a sender that is
    true, [None] otherwise; the outer [None] is a raised exception. *)
Definition sender_color (sender : option string) : option (option Color) :=
  match sender with
  | Some (String a r) =>
      Py.bind (foreground_num (String a r))
              (fun fg => Some (Some (mkColor fg None)))
  | _ => Some None
  end.

(** [IRCHandle.rich_message]. *)
Definition rich_message (content : string) (sender : option string)
  (color : option Color) (reply_quote : string) : option RichText :=
  match color, sender with
  | Some c, Some (String a r) =>
      Py.bind (TextStyle_init (Some c) false false false) (fun ts1 =>
      Py.bind (TextStyle_init (Some (mkColor 15 None)) false false false) (fun ts2 =>
      Py.bind (TextStyle_init None false false false) (fun ts3 =>
      Some [ (ts1, "[" ++ String a r ++ "] ");
             (ts2, reply_quote);
             (ts3, content) ])))
  | _, _ =>
      Py.bind (TextStyle_init None false false false) (fun ts =>
      Some [ (ts, match sender with
                  | None => content
                  | Some sender => "[" ++ sender ++ "] " ++ content
                  end) ])
  end.

Section Quote.

(** The opening and the closing bracket of the reply templates of
    [IRC.py] and [xmpp.py]; the two characters lie outside the modelled
    range and are left abstract. *)
Variable quote_open quote_close : string.

(** The template of the reply quote, filled in. *)
Definition quote_tmpl (reply_to reply_text : string) : string :=
  quote_open ++ "Re " ++ reply_to ++ ": " ++ reply_text ++ quote_close.

(** The variable [reply_quote] of [IRCHandle.send_msg]; [reply_to] and
    [reply_text] are the entries of [kwargs], and [None] is the
    [KeyError] of a missing [reply_to]. *)
Definition reply_quote (first : bool) (reply_to reply_text : option string)
  : option string :=
  match first, reply_text with
  | true, Some reply_text =>
      match reply_to with
      | None => None
      | Some reply_to => Some (quote_tmpl reply_to (Py.shorten 8 reply_text))
      end
  | _, _ => Some ""
  end.

(** [IRCHandle.send_msg]: the text handed to [irc_conn.privmsg]. *)
Definition send_msg (content : string) (sender : option string) (first : bool)
  (reply_to reply_text : option string) : option string :=
  Py.bind (sender_color sender) (fun color =>
  Py.bind (reply_quote first reply_to reply_text) (fun reply_quote =>
  Py.bind (rich_message content sender color reply_quote) (fun msg =>
  Some (IRC.formatRichText msg)))).

End Quote.

End IRCSend.

Module XMPP.

(** [XMPPHandle.msg_tmpl], filled in by [format]. *)
Definition msg_tmpl (sender : option string) (reply_quote content : string)
  : string :=
  match sender with
  | None => content
  | Some sender => "[" ++ sender ++ "] " ++ reply_quote ++ content
  end.

Section Quote.

Variable quote_open quote_close : string.

(** The variable [reply_quote] of [XMPPHandle.send_msg]: it is assigned
    inside the test on the length of the reply text. *)
Definition reply_quote (first : bool) (reply_to reply_text : option string)
  : option string :=
  match first, reply_text with
  | true, Some reply_text =>
      match reply_to with
      | None => None
      | Some reply_to =>
          if (5 <? String.length reply_text)%nat then
            Some (IRCSend.quote_tmpl quote_open quote_close reply_to
                    (String.substring 0 5 reply_text ++ "..."))
          else Some ""
      end
  | _, _ => Some ""
  end.

(** [XMPPHandle.send_msg]: the body handed to [send_message]. *)
Definition send_msg (content : string) (sender : option string) (first : bool)
  (reply_to reply_text : option string) : option string :=
  Py.bind (reply_quote first reply_to reply_text) (fun reply_quote =>
  Some (msg_tmpl sender reply_quote content)).

End Quote.

End XMPP.

Module BabbleSend.
Import Models.

Section Label.

(** The two characters that follow the channel name in the second run of
    [rich_message]; they lie outside the modelled range. *)
Variable users_label : string.

(** ["{}".format(channel)] for a channel that may be [None]. *)
Definition format_channel (channel : option string) : string :=
  match channel with
  | Some c => c
  | None => "None"
  end.

(** [DiscourseBabbleHandle.rich_message]. *)
Definition rich_message (content : string) (sender : option string)
  (color : option Color) (reply_quote : string) (channel : option string)
  : option RichText :=
  match color, sender with
  | Some c, Some (String a r) =>
      Py.bind (TextStyle_init (Some c) false true false) (fun ts1 =>
      Py.bind (TextStyle_init (Some (mkColor 16 None)) false false false) (fun ts2 =>
      Py.bind (TextStyle_init (Some (mkColor 16 None)) false false false) (fun ts3 =>
      Py.bind (TextStyle_init None false false false) (fun ts4 =>
      Some [ (ts1, String a r);
             (ts2, " " ++ format_channel channel ++ " " ++ users_label
                       ++ String "010"%char "");
             (ts3, reply_quote ++ String "010"%char "");
             (ts4, Xss.md_escape content) ]))))
  | _, _ =>
      Py.bind (TextStyle_init None false false false) (fun ts =>
      Some [ (ts, match sender with
                  | None => content
                  | Some sender => "[" ++ sender ++ "] " ++ content
                  end) ])
  end.

(** The text that [DiscourseBabbleHandle.send_msg] builds with
    [rich_message] and [formatRichText] for a given reply quote and
    channel name. *)
Definition post_text (content : string) (sender : option string)
  (reply_quote : string) (channel : option string) : option string :=
  Py.bind (IRCSend.sender_color sender) (fun color =>
  Py.bind (rich_message content sender color reply_quote channel) (fun msg =>
  DiscourseBabble.formatRichText msg)).

End Label.

End BabbleSend.

(** ** [telegram.py]: the nickname store *)

Module MemNickStore.

(** The two dictionaries of a [MemNickStore]. *)
Record t := mk {
  usernicks : Z -> option string;
  nickusers : string -> option string
}.

(** [MemNickStore()]. *)
Definition init : t := mk (fun _ => None) (fun _ => None).

Definition set_nickname (st : t) (user_id : Z) (nickname : string) : t :=
  mk (fun k => if k =? user_id then Some nickname else usernicks st k)
     (nickusers st).

Definition set_username (st : t) (nickname username : string) : t :=
  mk (usernicks st)
     (fun k => if String.eqb k nickname then Some username else nickusers st k).

Definition get_username (st : t) (nickname : string) : option string :=
  nickusers st nickname.

(** [get_nickname]: the nickname and the store it leaves. *)
Definition get_nickname (st : t) (user_id : Z)
  (username display_name : option string) : string * t :=
  let nick := usernicks st user_id in
  let '(nick, st) :=
    if negb (Py.truthy nick) && Py.truthy username then
      match username with
      | Some u => (Some u, set_nickname st user_id u)
      | None => (nick, st)
      end
    else (nick, st) in
  let st :=
    if Py.truthy nick && Py.truthy username then
      match nick, username with
      | Some n, Some u => set_username st n u
      | _, _ => st
      end
    else st in
  let result :=
    if Py.truthy nick then match nick with Some n => n | None => "" end
    else if Py.truthy display_name then
      match display_name with Some d => d | None => "" end
    else "tg-" ++ Str.of_int user_id in
  (result, st).

End MemNickStore.

(** ** [telegram.py]: uploads *)

Module Upload.

(** A sticker store: [BaseStickerURLStore], which keeps nothing, or a
    [RedisStickerURLStore] with the hash it reads and writes. *)
Inductive StickerStore :=
| BaseStickerURLStore
| RedisStickerURLStore (h : string -> option string).

(** [get_sticker]: an absent and an empty entry both give [None]. *)
Definition get_sticker (store : StickerStore) (sticker_id : string)
  : option string :=
  match store with
  | BaseStickerURLStore => None
  | RedisStickerURLStore h =>
      match h sticker_id with
      | Some (String a r) => Some (String a r)
      | _ => None
      end
  end.

Definition set_sticker (store : StickerStore) (sticker_id url : string)
  : StickerStore :=
  match store with
  | BaseStickerURLStore => BaseStickerURLStore
  | RedisStickerURLStore h =>
      RedisStickerURLStore
        (fun k => if String.eqb k sticker_id then Some url else h k)
  end.

(** A document of a Telegram message, as far as [upload_document] reads
    it. *)
Record Document := mkDocument {
  file_id : string;
  file_name : option string
}.

Section Telegram.

(** What lies outside the bot: the download of a file, the photo and the
    file store (absent when not configured), and the helpers [md5] and
    [webp2png]. *)
Variable download_file : string -> option string.
Variable photo_store : option (string -> option string -> option string).
Variable file_store : option (string -> string -> string -> option string).
Variable md5 : string -> string.
Variable webp2png : string -> string.

(** The pair [(url, err)] that the upload methods return. *)
Definition result := (option string * option string)%type.

(** [Telegram.upload_photo]. *)
Definition upload_photo (file_id : string) : result :=
  match photo_store with
  | None => (None, Some "No photo store available")
  | Some upload_image =>
      match download_file file_id with
      | None => (None, Some "teleboto Faild to download file")
      | Some photo =>
          match upload_image photo None with
          | None => (None, Some "Failed to upload Image")
          | Some url => (Some url, None)
          end
      end
  end.

(** [Telegram.upload_sticker]; the sticker store of a [Telegram] is
    always an object, so its tests succeed. *)
Definition upload_sticker (store : StickerStore) (file_id : string)
  : result * StickerStore :=
  match get_sticker store file_id with
  | Some url => ((Some url, None), store)
  | None =>
      match photo_store with
      | None => ((None, Some "Unable to upload photo"), store)
      | Some upload_image =>
          match download_file file_id with
          | None => ((None, Some "teleboto failed to download file"), store)
          | Some sticker =>
              let m := md5 sticker in
              match get_sticker store m with
              | Some url => ((Some url, None), store)
              | None =>
                  let photo := webp2png sticker in
                  match upload_image photo (Some "sticker") with
                  | None => ((None, Some "Failed to upload Image"), store)
                  | Some url =>
                      ((Some url, None),
                       set_sticker (set_sticker store file_id url) m url)
                  end
              end
          end
      end
  end.

(** [Telegram.upload_document]. *)
Definition upload_document (doc : Document) (filetype : string) : result :=
  match file_store with
  | None => (None, Some "No file store available")
  | Some upload_file =>
      match download_file (file_id doc) with
      | None => (None, Some "teleboto Faild to download file")
      | Some filedata =>
          let name := match file_name doc with Some n => n | None => "file" end in
          match upload_file filedata name filetype with
          | None => (None, Some "Failed to upload Document")
          | Some url => (Some url, None)
          end
      end
  end.

End Telegram.

(** Exactly one of the URL and the error is present. *)
Definition one_of (r : result) : Prop :=
  match r with
  | (Some _, None) | (None, Some _) => True
  | _ => False
  end.

End Upload.

(** ** [photostore.py] *)

Module Imgur.

(** [re.sub(r'^http:', 'https:', link)]: the pattern is anchored, so it
    can only match at the start of the link. *)
Definition secure (link : string) : string :=
  if String.prefix "http:" link then "https:" ++ Str.drop 5 link else link.

End Imgur.

(** ** Fragments of cooked HTML *)

Module Fragment.

(** A piece of a fragment: a tag with the text between its brackets, or
    a text that the fragment holds entity-encoded. *)
Inductive piece :=
| Tag (body : string)
| Text (t : string).


(** The piece as it stands in the fragment. *)
Definition encode (p : piece) : string :=
  match p with
  | Tag body => "<" ++ body ++ ">"
  | Text t => Html.escape t true
  end.

(** The fragment made of the pieces, and the text it carries. *)
Definition source (ps : list piece) : string := Str.join (map encode ps).

Definition text (ps : list piece) : string :=
  Str.join (map (fun p => match p with Tag _ => "" | Text t => t end) ps).

End Fragment.

(** * Part II: properties *)

(** ** Strings *)

Lemma append_nil_r (s : string) : s ++ "" = s.
Proof. induction s as [|a s IH]; simpl; [reflexivity | now rewrite IH]. Qed.

Lemma append_assoc (s t u : string) : (s ++ t) ++ u = s ++ (t ++ u).
Proof. induction s as [|a s IH]; simpl; [reflexivity | now rewrite IH]. Qed.

Lemma length_append (s t : string) :
  String.length (s ++ t) = (String.length s + String.length t)%nat.
Proof. induction s as [|a s IH]; simpl; [reflexivity | now rewrite IH]. Qed.

Lemma mem_append (c : ascii) (s t : string) :
  Str.mem c (s ++ t) = Str.mem c s || Str.mem c t.
Proof.
  induction s as [|a s IH]; simpl; [reflexivity|].
  now rewrite IH, orb_assoc.
Qed.

Lemma count_append (c : ascii) (s t : string) :
  Str.count c (s ++ t) = (Str.count c s + Str.count c t)%nat.
Proof.
  induction s as [|a s IH]; simpl; [reflexivity|].
  rewrite IH. lia.
Qed.

Lemma count_0_mem (c : ascii) (s : string) :
  Str.count c s = O <-> Str.mem c s = false.
Proof.
  induction s as [|a s IH]; simpl; [tauto|].
  destruct (Ascii.eqb a c); simpl; [split; discriminate | exact IH].
Qed.

Lemma join_app (xs ys : list string) :
  Str.join (xs ++ ys) = Str.join xs ++ Str.join ys.
Proof.
  induction xs as [|x xs IH]; simpl; [reflexivity|].
  now rewrite IH, append_assoc.
Qed.

Lemma subst_chars_append f (s t : string) :
  Str.subst_chars f (s ++ t) = Str.subst_chars f s ++ Str.subst_chars f t.
Proof.
  induction s as [|a s IH]; simpl; [reflexivity|].
  now rewrite IH, append_assoc.
Qed.

Lemma subst_chars_compose f g (s : string) :
  Str.subst_chars g (Str.subst_chars f s)
  = Str.subst_chars (fun a => Str.subst_chars g (f a)) s.
Proof.
  induction s as [|a s IH]; simpl; [reflexivity|].
  now rewrite subst_chars_append, IH.
Qed.

Lemma subst_chars_ext f g (s : string) :
  (forall a, f a = g a) -> Str.subst_chars f s = Str.subst_chars g s.
Proof.
  intros E. induction s as [|a s IH]; simpl; [reflexivity|].
  now rewrite E, IH.
Qed.

Lemma break_at_Some c s p q :
  Str.break_at c s = Some (p, q) ->
  s = p ++ String c q /\ Str.mem c p = false.
Proof.
  revert p q. induction s as [|a s IH]; simpl; intros p q H; [discriminate|].
  destruct (Ascii.eqb a c) eqn:E.
  - apply Ascii.eqb_eq in E. inversion H; subst. now split.
  - destruct (Str.break_at c s) as [[p' q']|]; [|discriminate].
    inversion H; subst. destruct (IH _ _ eq_refl) as [-> Hm].
    simpl. rewrite E. now split.
Qed.

Lemma break_at_None c s : Str.break_at c s = None <-> Str.mem c s = false.
Proof.
  induction s as [|a s IH]; simpl; [tauto|].
  destruct (Ascii.eqb a c); simpl.
  - split; discriminate.
  - destruct (Str.break_at c s) as [[p q]|].
    + split; [discriminate|]. intros H. apply IH in H. discriminate.
    + split; [intros _; now apply IH | reflexivity].
Qed.

Lemma break_at_append c p q :
  Str.mem c p = false -> Str.break_at c (p ++ String c q) = Some (p, q).
Proof.
  induction p as [|a p IH]; simpl; intros H.
  - now rewrite Ascii.eqb_refl.
  - apply orb_false_iff in H as [H1 H2]. now rewrite H1, IH.
Qed.

(** ** [re.sub] *)

Section SubFacts.

Variable pat : Re.matcher.
Variable repl : string -> string.

(** Passing over the rest of a match. *)
Lemma sub_from_skip (pre s : string) :
  Re.sub_from pat repl (String.length pre) (pre ++ s) = Re.sub_from pat repl O s.
Proof. induction pre as [|a pre IH]; simpl; [reflexivity | exact IH]. Qed.

Lemma sub_nomatch (a : ascii) (r : string) :
  pat (String a r) = None ->
  Re.sub pat repl (String a r) = String a (Re.sub pat repl r).
Proof. intros H. unfold Re.sub. simpl. now rewrite H. Qed.

Lemma sub_match (a : ascii) (pre rest m : string) :
  pat (String a (pre ++ rest)) = Some (m, S (String.length pre)) ->
  Re.sub pat repl (String a (pre ++ rest)) = repl m ++ Re.sub pat repl rest.
Proof.
  intros H. unfold Re.sub. simpl. rewrite H. simpl.
  now rewrite sub_from_skip.
Qed.

End SubFacts.

(** Substituting for a literal character is a character-wise map. *)
Lemma sub_literal (c : ascii) (new : string) (s : string) :
  Re.sub (Re.literal c) (fun _ => new) s
  = Str.subst_chars (fun a => if Ascii.eqb a c then new else String a "") s.
Proof.
  unfold Re.sub. induction s as [|a s IH]; simpl; [reflexivity|].
  destruct (Ascii.eqb a c); simpl; now rewrite IH.
Qed.

(** ** [md_escape] *)

Lemma md_escape_charwise (text : string) :
  Xss.md_escape text = Str.subst_chars Xss.md_escape_char text.
Proof.
  unfold Xss.md_escape, Xss.replace, Xss.replacements.
  cbn [fold_left fst snd].
  rewrite !sub_literal, !subst_chars_compose.
  apply subst_chars_ext.
  intros [[] [] [] [] [] [] [] []]; reflexivity.
Qed.

(** C6 (amended).  [md_escape] puts a backslash before each occurrence of
    the characters [* # / ( ) [ ] _] and backtick, replaces [<] and [>]
    with [&lt;] and [&gt;], and copies every other character; in
    particular [md_escape("a*b_c")] is the seven-character string
    a, backslash, star, b, backslash, underscore, c. *)
Theorem md_escape_spec :
  (forall text : string,
     Xss.md_escape text = Str.subst_chars Xss.md_escape_char text) /\
  Xss.md_escape "a*b_c"
  = String "a" (String "\" (String "*" (String "b"
      (String "\" (String "_" (String "c" EmptyString)))))) /\
  String.length (Xss.md_escape "a*b_c") = 7%nat.
Proof.
  split; [exact md_escape_charwise | split; reflexivity].
Qed.

(** C6 as stated fails on the length it gives for the example: the
    result of [md_escape("a*b_c")] does not have five characters. *)
Lemma md_escape_example_not_five_chars :
  String.length (Xss.md_escape "a*b_c") <> 5%nat.
Proof. vm_compute. discriminate. Qed.

(** ** [html.escape] and [html.unescape] *)

Lemma escape_charwise (s : string) :
  Html.escape s true = Str.subst_chars Html.escape_char s.
Proof.
  unfold Html.escape, Re.str_replace.
  rewrite !sub_literal, !subst_chars_compose.
  apply subst_chars_ext.
  intros [[] [] [] [] [] [] [] []]; reflexivity.
Qed.

Lemma escape_char_cases (c : ascii) :
  (c = "&"%char /\ Html.escape_char c = "&amp;") \/
  (c = "<"%char /\ Html.escape_char c = "&lt;") \/
  (c = ">"%char /\ Html.escape_char c = "&gt;") \/
  (c = Str.dquote /\ Html.escape_char c = "&quot;") \/
  (c = "'"%char /\ Html.escape_char c = "&#x27;") \/
  (Html.meta c = false /\ Html.escape_char c = String c "").
Proof.
  destruct c as [[] [] [] [] [] [] [] []]; vm_compute; tauto.
Qed.

(** The escaped text holds no [<], no [>], no double quote and no
    apostrophe. *)
Lemma escape_no_meta (s : string) (c : ascii) :
  Html.meta c = true -> c <> "&"%char ->
  Str.mem c (Html.escape s true) = false.
Proof.
  intros Hc Hamp. rewrite escape_charwise.
  induction s as [|a s IH]; simpl; [reflexivity|].
  rewrite mem_append, IH, orb_false_r.
  destruct (escape_char_cases a) as [[_ ->]|[[_ ->]|[[_ ->]|[[_ ->]|[[_ ->]|[Ha ->]]]]]];
    try (revert Hc Hamp;
         destruct c as [[] [] [] [] [] [] [] []]; vm_compute;
         intros; congruence).
  simpl. rewrite orb_false_r.
  destruct (Ascii.eqb a c) eqn:E; [|reflexivity].
  apply Ascii.eqb_eq in E. subst. congruence.
Qed.

Section UnescapeFacts.

Variable replace_charref : string -> string.

Lemma sub_charref_no_amp (s : string) :
  Str.mem "&"%char s = false -> Re.sub Html.charref replace_charref s = s.
Proof.
  induction s as [|a s IH]; simpl; intros H; [reflexivity|].
  apply orb_false_iff in H as [H1 H2].
  rewrite sub_nomatch; [now rewrite IH|].
  unfold Html.charref. now rewrite H1.
Qed.

(** The shortcut of [html.unescape] for a text without ['&'] does not
    change its result. *)
Lemma unescape_sub (s : string) :
  Html.unescape replace_charref s = Re.sub Html.charref replace_charref s.
Proof.
  unfold Html.unescape.
  destruct (Str.mem "&"%char s) eqn:E; simpl; [reflexivity|].
  now rewrite sub_charref_no_amp.
Qed.

Hypothesis decodes : Html.decodes_escapes replace_charref.

(** Unescaping undoes escaping. *)
Lemma unescape_escape (t : string) :
  Html.unescape replace_charref (Html.escape t true) = t.
Proof.
  destruct decodes as (Hamp & Hlt & Hgt & Hquot & Hapos).
  rewrite unescape_sub, escape_charwise.
  induction t as [|a t IH]; [reflexivity|].
  cbn [Str.subst_chars].
  destruct (escape_char_cases a)
    as [[-> ->]|[[-> ->]|[[-> ->]|[[-> ->]|[[-> ->]|[Ha ->]]]]]].
  - change ("&amp;" ++ Str.subst_chars Html.escape_char t)
      with (String "&" ("amp;" ++ Str.subst_chars Html.escape_char t)).
    rewrite (sub_match _ _ _ "amp;" _ "amp;"); [now rewrite Hamp, IH | reflexivity].
  - change ("&lt;" ++ Str.subst_chars Html.escape_char t)
      with (String "&" ("lt;" ++ Str.subst_chars Html.escape_char t)).
    rewrite (sub_match _ _ _ "lt;" _ "lt;"); [now rewrite Hlt, IH | reflexivity].
  - change ("&gt;" ++ Str.subst_chars Html.escape_char t)
      with (String "&" ("gt;" ++ Str.subst_chars Html.escape_char t)).
    rewrite (sub_match _ _ _ "gt;" _ "gt;"); [now rewrite Hgt, IH | reflexivity].
  - change ("&quot;" ++ Str.subst_chars Html.escape_char t)
      with (String "&" ("quot;" ++ Str.subst_chars Html.escape_char t)).
    rewrite (sub_match _ _ _ "quot;" _ "quot;"); [now rewrite Hquot, IH | reflexivity].
  - change ("&#x27;" ++ Str.subst_chars Html.escape_char t)
      with (String "&" ("#x27;" ++ Str.subst_chars Html.escape_char t)).
    rewrite (sub_match _ _ _ "#x27;" _ "#x27;"); [now rewrite Hapos, IH | reflexivity].
  - cbn [String.append].
    rewrite sub_nomatch; [now rewrite IH|].
    unfold Html.charref.
    destruct (Ascii.eqb a "&") eqn:E; [|reflexivity].
    apply Ascii.eqb_eq in E. subst. discriminate.
Qed.

End UnescapeFacts.

(** ** [cooked_unescape] *)

Lemma tag_only_at_lt (a : ascii) (r : string) :
  a <> "<"%char -> Re.tag (String a r) = None.
Proof.
  intros H. unfold Re.tag.
  destruct (Ascii.eqb a "<") eqn:E; [|reflexivity].
  apply Ascii.eqb_eq in E. contradiction.
Qed.

Lemma tag_match (body rest : string) :
  body <> "" -> Str.mem ">"%char body = false ->
  Re.tag (String "<" ((body ++ ">") ++ rest))
  = Some ("<" ++ body ++ ">", S (String.length (body ++ ">"))).
Proof.
  intros Hne Hm. unfold Re.tag.
  rewrite Ascii.eqb_refl, append_assoc.
  change (">" ++ rest) with (String ">" rest).
  rewrite (break_at_append _ _ _ Hm).
  destruct body as [|b body]; [contradiction|].
  rewrite length_append. simpl. repeat f_equal. lia.
Qed.

Lemma tag_Some_inv (a : ascii) (r m : string) (n : nat) :
  Re.tag (String a r) = Some (m, n) ->
  exists body rest,
    a = "<"%char /\ r = (body ++ ">") ++ rest /\
    body <> "" /\ Str.mem ">"%char body = false.
Proof.
  unfold Re.tag. destruct (Ascii.eqb a "<") eqn:E; [|discriminate].
  apply Ascii.eqb_eq in E.
  destruct (Str.break_at ">" r) as [[body rest]|] eqn:B; [|discriminate].
  destruct body as [|b body]; [discriminate|]. intros _.
  apply break_at_Some in B as [-> Hm].
  exists (String b body), rest. rewrite append_assoc. repeat split; auto.
  discriminate.
Qed.

Lemma strip_tags_nomatch (a : ascii) (r : string) :
  Re.tag (String a r) = None ->
  Xss.strip_tags (String a r) = String a (Xss.strip_tags r).
Proof. apply sub_nomatch. Qed.

Lemma strip_tags_match (body rest : string) :
  body <> "" -> Str.mem ">"%char body = false ->
  Xss.strip_tags ("<" ++ body ++ ">" ++ rest) = Xss.strip_tags rest.
Proof.
  intros Hne Hm. unfold Xss.strip_tags.
  change ("<" ++ body ++ ">" ++ rest) with (String "<" (body ++ ">" ++ rest)).
  rewrite <- append_assoc.
  now rewrite (sub_match _ _ _ _ _ _ (tag_match body rest Hne Hm)).
Qed.

(** Induction along the scan of [strip_tags]. *)
Lemma strip_tags_ind (P : string -> Prop) :
  P "" ->
  (forall a r, Re.tag (String a r) = None -> P r -> P (String a r)) ->
  (forall body rest,
     body <> "" -> Str.mem ">"%char body = false ->
     P rest -> P ("<" ++ body ++ ">" ++ rest)) ->
  forall s, P s.
Proof.
  intros Hnil Hkeep Htag s.
  remember (String.length s) as n eqn:Hn.
  revert s Hn. induction n as [n IH] using lt_wf_ind. intros s Hn.
  destruct s as [|a r]; [exact Hnil|].
  destruct (Re.tag (String a r)) as [[m k]|] eqn:T.
  - apply tag_Some_inv in T as (body & rest & -> & -> & Hne & Hm).
    rewrite append_assoc.
    apply (Htag body rest Hne Hm).
    apply (IH (String.length rest)); [|reflexivity].
    subst n. simpl. rewrite !length_append. simpl. lia.
  - apply (Hkeep a r T).
    apply (IH (String.length r)); [|reflexivity].
    subst n. simpl. lia.
Qed.

Lemma strip_tags_Erased (s : string) : Xss.Erased s (Xss.strip_tags s).
Proof.
  induction s as [|a r T IH|body rest Hne Hm IH] using strip_tags_ind.
  - constructor.
  - rewrite (strip_tags_nomatch _ _ T). now constructor.
  - rewrite (strip_tags_match _ _ Hne Hm).
    replace ("<" ++ body ++ ">" ++ rest) with (("<" ++ body ++ ">") ++ rest)
      by (simpl; now rewrite append_assoc).
    apply Xss.Erased_tag; [|exact IH].
    exists body. auto.
Qed.

Lemma Erased_mem (c : ascii) (s t : string) :
  Xss.Erased s t -> Str.mem c s = false -> Str.mem c t = false.
Proof.
  induction 1 as [|a s t _ IH|tg s t _ _ IH]; simpl; intros H; auto.
  - apply orb_false_iff in H as [H1 H2]. rewrite H1. simpl. auto.
  - rewrite mem_append in H. apply orb_false_iff in H as [_ H]. auto.
Qed.

(** In the stripped text a ['<'] is directly followed by a ['>'] or by
    no ['>'] at all. *)
Lemma strip_tags_lt (s pre post : string) :
  Xss.strip_tags s = pre ++ String "<" post ->
  Str.starts_with (Ascii.eqb ">") post = true \/ Str.mem ">"%char post = false.
Proof.
  revert pre post.
  induction s as [|a r T IH|body rest Hne Hm IH] using strip_tags_ind;
    intros pre post E.
  - destruct pre; discriminate.
  - rewrite (strip_tags_nomatch _ _ T) in E.
    destruct pre as [|b pre]; simpl in E.
    + inversion E; subst a. clear E.
      unfold Re.tag in T. rewrite Ascii.eqb_refl in T.
      destruct (Str.break_at ">" r) as [[body rest]|] eqn:B.
      * destruct body as [|b body]; [|discriminate].
        apply break_at_Some in B as [-> _]. cbn [String.append].
        rewrite strip_tags_nomatch by (apply tag_only_at_lt; discriminate).
        left. reflexivity.
      * right. apply break_at_None in B.
        now apply (Erased_mem _ _ _ (strip_tags_Erased r)).
    + inversion E; subst. eauto.
  - rewrite (strip_tags_match _ _ Hne Hm) in E. eauto.
Qed.

Lemma strip_tags_tag_free (s : string) : Xss.tag_free (Xss.strip_tags s).
Proof.
  intros pre tg post (body & -> & Hne & Hm) E.
  simpl in E. rewrite append_assoc in E.
  apply strip_tags_lt in E as [E|E].
  - destruct body as [|b body]; [contradiction|].
    cbn [Str.starts_with String.append] in E. cbn [Str.mem] in Hm.
    rewrite Ascii.eqb_sym in E. rewrite E in Hm. discriminate.
  - rewrite mem_append in E. apply orb_false_iff in E as [_ E].
    simpl in E. discriminate.
Qed.

(** A text without ['<'] has no tag to strip. *)
Lemma strip_tags_no_lt (s : string) :
  Str.mem "<"%char s = false -> Xss.strip_tags s = s.
Proof.
  induction s as [|a s IH]; simpl; intros H; [reflexivity|].
  apply orb_false_iff in H as [H1 H2].
  rewrite strip_tags_nomatch; [now rewrite IH|].
  apply tag_only_at_lt. intros ->. discriminate.
Qed.

(** C5.  [cooked_unescape] takes out of its input substrings that match
    [<...>] (a ['<'], at least one character other than ['>'], a ['>'])
    until none is left, and HTML-unescapes what remains; in particular
    [cooked_unescape("<p>Hi &amp; bye</p>")] is ["Hi & bye"]. *)
Theorem cooked_unescape_spec (replace_charref : string -> string)
  (Hamp : replace_charref "amp;" = "&") :
  (forall message : string,
     Xss.Erased message (Xss.strip_tags message) /\
     Xss.tag_free (Xss.strip_tags message) /\
     Xss.cooked_unescape replace_charref message
     = Html.unescape replace_charref (Xss.strip_tags message)) /\
  Xss.cooked_unescape replace_charref "<p>Hi &amp; bye</p>" = "Hi & bye".
Proof.
  split.
  - intros message. split; [apply strip_tags_Erased|].
    split; [apply strip_tags_tag_free | reflexivity].
  - vm_compute. now rewrite Hamp.
Qed.

Lemma cooked_unescape_spec_witness :
  Html.replace_charref_basic "amp;" = "&" /\
  Xss.cooked_unescape Html.replace_charref_basic "<p>Hi &amp; bye</p>"
  = "Hi & bye".
Proof.
  split; [reflexivity|].
  apply (cooked_unescape_spec Html.replace_charref_basic). reflexivity.
Defined.

Lemma strip_tags_text (e rest : string) :
  Str.mem "<"%char e = false ->
  Xss.strip_tags (e ++ rest) = e ++ Xss.strip_tags rest.
Proof.
  induction e as [|a e IH]; intros H; [reflexivity|].
  cbn [Str.mem] in H. apply orb_false_iff in H as [Ha He].
  cbn [String.append].
  rewrite strip_tags_nomatch, IH; auto.
  apply tag_only_at_lt. intros ->. discriminate.
Qed.

Lemma escape_append (s t : string) :
  Html.escape (s ++ t) true = Html.escape s true ++ Html.escape t true.
Proof. rewrite !escape_charwise. apply subst_chars_append. Qed.

Lemma escape_no_lt (s : string) : Str.mem "<"%char (Html.escape s true) = false.
Proof. apply escape_no_meta; [reflexivity | discriminate]. Qed.





(** ** The loops of the renderers *)

Lemma fold_left_append (A : Type) (f : A -> string) (l : list A) (acc : string) :
  fold_left (fun out x => out ++ f x) l acc = acc ++ Str.join (map f l).
Proof.
  revert acc. induction l as [|x l IH]; intros acc; simpl.
  - now rewrite append_nil_r.
  - now rewrite IH, append_assoc.
Qed.

Lemma irc_formatRichText_join (rt : Models.RichText) :
  IRC.formatRichText rt = Str.join (map IRC.format_run rt).
Proof. unfold IRC.formatRichText. now rewrite fold_left_append. Qed.

Lemma telegram_formatRichText_join (rt : Models.RichText) (escape : bool) :
  Telegram.formatRichText rt escape
  = Str.join (map (Telegram.format_run escape) rt).
Proof. unfold Telegram.formatRichText. now rewrite fold_left_append. Qed.

Lemma babble_fold_None (rt : Models.RichText) :
  fold_left (fun formated_text run =>
               match formated_text with
               | Some acc =>
                   match DiscourseBabble.format_run run with
                   | Some out => Some (acc ++ out)
                   | None => None
                   end
               | None => None
               end) rt None = None.
Proof. induction rt as [|run rt IH]; simpl; auto. Qed.

Lemma babble_formatRichText_join (rt : Models.RichText) :
  DiscourseBabble.formatRichText rt
  = Str.join_opt (map DiscourseBabble.format_run rt).
Proof.
  unfold DiscourseBabble.formatRichText.
  enough (H : forall acc,
             fold_left (fun formated_text run =>
               match formated_text with
               | Some acc =>
                   match DiscourseBabble.format_run run with
                   | Some out => Some (acc ++ out)
                   | None => None
                   end
               | None => None
               end) rt (Some acc)
             = match Str.join_opt (map DiscourseBabble.format_run rt) with
               | Some out => Some (acc ++ out)
               | None => None
               end).
  { rewrite H. now destruct (Str.join_opt _). }
  induction rt as [|run rt IH]; intros acc; simpl.
  - now rewrite append_nil_r.
  - destruct (DiscourseBabble.format_run run) as [out|].
    + rewrite IH. destruct (Str.join_opt _); [|reflexivity].
      now rewrite append_assoc.
    + apply babble_fold_None.
Qed.

Lemma join_opt_app (xs ys : list (option string)) :
  Str.join_opt (xs ++ ys)
  = match Str.join_opt xs, Str.join_opt ys with
    | Some x, Some y => Some (x ++ y)
    | _, _ => None
    end.
Proof.
  induction xs as [|[x|] xs IH]; simpl.
  - now destruct (Str.join_opt ys).
  - rewrite IH. destruct (Str.join_opt xs), (Str.join_opt ys); auto.
    now rewrite append_assoc.
  - reflexivity.
Qed.

(** ** The Telegram renderer *)

(** C3 (amended).  The Telegram renderer is flat and renders one style
    at most, bold before italic: a bold run is rendered bold whatever its
    other attributes, a run that is italic and not bold is rendered
    italic, and any other run is emitted as its text alone; colour and
    underline are never rendered. *)
Theorem telegram_precedence :
  forall (c : option Models.Color) (i u escape : bool) (text : string),
    let body := if escape then Html.escape text true else text in
    Telegram.formatRichText [(Models.mkTextStyle c i true u, text)] escape
    = "<b>" ++ body ++ "</b>" /\
    Telegram.formatRichText [(Models.mkTextStyle c true false u, text)] escape
    = "<i>" ++ body ++ "</i>" /\
    Telegram.formatRichText [(Models.mkTextStyle c false false u, text)] escape
    = body.
Proof.
  intros c i u escape text body. unfold Telegram.formatRichText. simpl.
  repeat split; reflexivity.
Qed.

(** C3 as stated fails on its last part: a run that has a colour and is
    neither bold nor italic is rendered exactly as a run of normal style,
    without its colour (the case of the test of [telegram.py]). *)
Lemma telegram_color_not_rendered :
  let red := Models.mkTextStyle (Some (Models.mkColor 4 None)) false false false in
  Telegram.formatRichText [(red, "errors:")] true = "errors:" /\
  Telegram.formatRichText [(red, "errors:")] true
  = Telegram.formatRichText [(Models.normal, "errors:")] true.
Proof. split; reflexivity. Qed.

Lemma telegram_run_count (c : ascii) (ts : Models.TextStyle) (text : string) :
  c = "<"%char \/ c = ">"%char ->
  Str.count c (Telegram.format_run true (ts, text))
  = if Models.is_bold ts || Models.is_italic ts then 2%nat else 0%nat.
Proof.
  intros Hc.
  assert (E : Str.count c (Html.escape text true) = O).
  { apply count_0_mem. apply escape_no_meta; destruct Hc; subst; easy. }
  unfold Telegram.format_run.
  destruct (Models.is_bold ts); [|destruct (Models.is_italic ts)];
    cbn [orb]; rewrite ?count_append, ?E; auto;
    destruct Hc; subst; reflexivity.
Qed.

Lemma telegram_count (c : ascii) (rt : Models.RichText) :
  c = "<"%char \/ c = ">"%char ->
  Str.count c (Telegram.formatRichText rt true)
  = (2 * Telegram.wrapped_runs rt)%nat.
Proof.
  intros Hc. rewrite telegram_formatRichText_join. unfold Telegram.wrapped_runs.
  induction rt as [|[ts text] rt IH]; [reflexivity|].
  cbn [map Str.join fold_right filter fst].
  change (fold_right append "" (map (Telegram.format_run true) rt))
    with (Str.join (map (Telegram.format_run true) rt)).
  rewrite count_append, IH, (telegram_run_count c ts text Hc).
  destruct (Models.is_bold ts || Models.is_italic ts); simpl; lia.
Qed.

(** C8 (amended).  When escaping is on ([escape] is true, the default
    of [formatRichText] and of [send_msg]), the Telegram renderer escapes
    the five HTML metacharacters of each run's text and then adds the
    wrapper, which is not escaped: the output is the concatenation of
    the wrapped escaped texts, each metacharacter being replaced by its
    entity; the only [<] and [>] of the output are those of the [<b>] and
    [<i>] wrappers, two of each per wrapped run, and no quote of a text
    is left; [send_msg] puts that output in its template.  When escaping
    is off, the text of each run is wrapped as it is. *)
Theorem telegram_escapes_text_not_wrappers :
  forall rt : Models.RichText,
    Telegram.formatRichText rt true
    = Str.join (map (fun run =>
                       Telegram.wrap (fst run)
                         (Str.subst_chars Html.escape_char (snd run))) rt) /\
    Str.count "<" (Telegram.formatRichText rt true)
    = (2 * Telegram.wrapped_runs rt)%nat /\
    Str.count ">" (Telegram.formatRichText rt true)
    = (2 * Telegram.wrapped_runs rt)%nat /\
    Str.mem Str.dquote (Telegram.formatRichText rt true) = false /\
    Str.mem "'" (Telegram.formatRichText rt true) = false /\
    (forall content sender run,
       Telegram.send_msg_text content sender true (Some (run :: rt))
       = Telegram.msg_tmpl sender (Telegram.formatRichText (run :: rt) true)) /\
    Telegram.formatRichText rt false
    = Str.join (map (fun run => Telegram.wrap (fst run) (snd run)) rt).
Proof.
  intros rt. split; [|split; [|split; [|split; [|split; [|split]]]]].
  - rewrite telegram_formatRichText_join. f_equal.
    apply map_ext. intros [ts text].
    unfold Telegram.format_run, Telegram.wrap. cbn [fst snd].
    now rewrite escape_charwise.
  - apply telegram_count. now left.
  - apply telegram_count. now right.
  - rewrite telegram_formatRichText_join.
    induction rt as [|[ts text] rt IH]; [reflexivity|].
    cbn [map Str.join fold_right].
    rewrite mem_append. apply orb_false_iff. split; [|exact IH].
    unfold Telegram.format_run.
    destruct (Models.is_bold ts); [|destruct (Models.is_italic ts)];
      rewrite ?mem_append, escape_no_meta; easy.
  - rewrite telegram_formatRichText_join.
    induction rt as [|[ts text] rt IH]; [reflexivity|].
    cbn [map Str.join fold_right].
    rewrite mem_append. apply orb_false_iff. split; [|exact IH].
    unfold Telegram.format_run.
    destruct (Models.is_bold ts); [|destruct (Models.is_italic ts)];
      rewrite ?mem_append, escape_no_meta; easy.
  - reflexivity.
  - rewrite telegram_formatRichText_join. f_equal.
    apply map_ext. intros [ts text]. reflexivity.
Qed.

(** C8 as stated fails when escaping is off: the same renderer then
    leaves the metacharacters of a text as they are, next to the
    wrapper. *)
Lemma telegram_unescaped_when_escape_off :
  let bold := Models.mkTextStyle None false true false in
  Telegram.formatRichText [(bold, "<i>&")] false = "<b><i>&</b>" /\
  Telegram.formatRichText [(bold, "<i>&")] true = "<b>&lt;i&gt;&amp;</b>" /\
  Str.count "<" (Telegram.formatRichText [(bold, "<i>&")] false) = 3%nat.
Proof. repeat split. Qed.

(** ** Runs with empty text *)

(** C7.  The IRC and the BBCode renderers skip a run whose text is
    empty: it adds nothing to the output, wherever it stands.  The
    Telegram renderer lacks that test: a bold or italic run with empty
    text still emits its wrapper. *)
Theorem empty_run_rendering :
  (forall (ts : Models.TextStyle) (rt1 rt2 : Models.RichText),
     IRC.formatRichText (rt1 ++ (ts, "") :: rt2)%list
     = IRC.formatRichText (rt1 ++ rt2)%list) /\
  (forall (ts : Models.TextStyle) (rt1 rt2 : Models.RichText),
     DiscourseBabble.formatRichText (rt1 ++ (ts, "") :: rt2)%list
     = DiscourseBabble.formatRichText (rt1 ++ rt2)%list) /\
  Telegram.formatRichText
    [(Models.mkTextStyle None false true false, "")] true = "<b></b>" /\
  Telegram.formatRichText
    [(Models.mkTextStyle None true false false, "")] true = "<i></i>" /\
  Telegram.formatRichText [] true = "".
Proof.
  split; [|split; [|repeat split]].
  - intros ts rt1 rt2. rewrite !irc_formatRichText_join, !map_app, !join_app.
    reflexivity.
  - intros ts rt1 rt2.
    rewrite !babble_formatRichText_join, !map_app, !join_opt_app.
    cbn [map Str.join_opt DiscourseBabble.format_run].
    destruct (Str.join_opt (map DiscourseBabble.format_run rt1)); [|reflexivity].
    destruct (Str.join_opt (map DiscourseBabble.format_run rt2)); reflexivity.
Qed.

(** ** The BBCode renderer *)



(** ** The palette *)

Lemma getitem_valid (i : Z) :
  Models.valid_index i = true ->
  exists rgb, DiscourseBabble.getitem DiscourseBabble.IRC_COLOR_RGB i = Some rgb.
Proof.
  unfold Models.valid_index. intros H.
  apply andb_true_iff in H as [H1 H2].
  apply Z.leb_le in H1, H2.
  assert (C : i = 0 \/ i = 1 \/ i = 2 \/ i = 3 \/ i = 4 \/ i = 5 \/ i = 6 \/
              i = 7 \/ i = 8 \/ i = 9 \/ i = 10 \/ i = 11 \/ i = 12 \/
              i = 13 \/ i = 14 \/ i = 15 \/ i = 16) by lia.
  repeat (destruct C as [->|C]; [eexists; reflexivity|]).
  subst. eexists; reflexivity.
Qed.

Lemma babble_format_run_valid (ts : Models.TextStyle) (text : string) :
  Models.valid_style ts = true ->
  exists out, DiscourseBabble.format_run (ts, text) = Some out.
Proof.
  intros V. unfold DiscourseBabble.format_run.
  destruct text as [|a r]; [eauto|].
  destruct (Models.is_normal ts); [eauto|].
  unfold DiscourseBabble.styled, DiscourseBabble.color.
  unfold Models.valid_style in V.
  destruct (Models.color ts) as [c|]; [|eauto].
  unfold Models.valid_color in V. apply andb_true_iff in V as [Vf Vb].
  destruct (getitem_valid _ Vf) as [rf Hf].
  unfold DiscourseBabble.fgcolor, DiscourseBabble.bgcolor, IRC.bg_truthy.
  rewrite Hf.
  destruct (Models.bg c) as [bv|]; [|eauto].
  destruct (getitem_valid _ Vb) as [rb Hb].
  destruct (bv =? 0); [eauto|]. rewrite Hb. eauto.
Qed.

(** C9.  The palette has 17 entries, indexed 0 to 16.  A style whose
    colour indices lie in that range never makes a palette lookup fail:
    the BBCode renderer, the only one that reads the palette, returns an
    output for every rich text of such styles.  The construction of a
    [TextStyle] accepts exactly the styles in range, so an index out of
    range is an error there. *)
Theorem palette_lookup_in_bounds :
  List.length DiscourseBabble.IRC_COLOR_RGB = 17%nat /\
  (forall i, Models.valid_index i = true <-> 0 <= i <= 16) /\
  (forall i, 0 <= i <= 16 ->
     exists rgb, DiscourseBabble.getitem DiscourseBabble.IRC_COLOR_RGB i = Some rgb) /\
  (forall rt : Models.RichText,
     Forall (fun run => Models.valid_style (fst run) = true) rt ->
     exists out, DiscourseBabble.formatRichText rt = Some out) /\
  (forall c i b u,
     Models.TextStyle_init c i b u
     = if Models.valid_style (Models.mkTextStyle c i b u)
       then Some (Models.mkTextStyle c i b u) else None) /\
  (forall c i b u ts rt,
     Models.TextStyle_init c i b u = Some ts ->
     Forall (fun run => Models.valid_style (fst run) = true) rt ->
     forall text,
     exists out, DiscourseBabble.formatRichText ((ts, text) :: rt) = Some out).
Proof.
  assert (R : forall i, Models.valid_index i = true <-> 0 <= i <= 16).
  { intros i. unfold Models.valid_index.
    rewrite andb_true_iff, !Z.leb_le. tauto. }
  assert (F : forall rt : Models.RichText,
             Forall (fun run => Models.valid_style (fst run) = true) rt ->
             exists out, DiscourseBabble.formatRichText rt = Some out).
  { intros rt H. rewrite babble_formatRichText_join.
    induction H as [|[ts text] rt V _ IH]; cbn [map Str.join_opt]; [eauto|].
    destruct (babble_format_run_valid ts text V) as [o ->].
    destruct IH as [out ->]. eauto. }
  split; [reflexivity|]. split; [exact R|].
  split; [intros i H; apply getitem_valid; now apply R|].
  split; [exact F|]. split; [reflexivity|].
  intros c i b u ts rt H Hrt text. apply F. constructor; [|exact Hrt].
  unfold Models.TextStyle_init in H. cbn [fst].
  destruct (Models.valid_style (Models.mkTextStyle c i b u)) eqn:V; [|discriminate].
  now inversion H; subst.
Qed.

Lemma palette_lookup_in_bounds_witness :
  let ts := Models.mkTextStyle (Some (Models.mkColor 16 (Some 15))) false true false in
  Models.TextStyle_init (Some (Models.mkColor 16 (Some 15))) false true false = Some ts /\
  exists out,
    DiscourseBabble.formatRichText [(ts, "fish"); (Models.normal, "room")] = Some out.
Proof.
  split; [reflexivity|].
  destruct palette_lookup_in_bounds as (_ & _ & _ & _ & _ & H).
  apply (H (Some (Models.mkColor 16 (Some 15))) false true false).
  - reflexivity.
  - repeat constructor.
Defined.

(** ** The IRC adapter *)

(** C4.  A message that the IRC adapter builds from a private or a
    public message and that carries a rich text has the plain text of
    that rich text as its content. *)
Theorem irc_message_content_is_plain
  (blacklist : list string) (is_cmd : string -> bool) (now : string * string)
  (event : IRC.Event) (msg : Models.Message) (rt : Models.RichText) :
  IRC.on_privmsg blacklist is_cmd now event = IRC.Sent msg \/
  IRC.on_pubmsg blacklist is_cmd now event = IRC.Sent msg ->
  Models.rich_text msg = Some rt ->
  Models.toPlain rt = Models.content msg.
Proof.
  intros H Hrt.
  assert (H' : IRC.on_privmsg blacklist is_cmd now event = IRC.Sent msg)
    by (destruct H as [H|H]; exact H).
  clear H. unfold IRC.on_privmsg in H'.
  destruct (Str.break_at "!" (IRC.source event)) as [[irc_nick rest]|];
    [|discriminate].
  destruct (existsb (String.eqb irc_nick) blacklist); [discriminate|].
  destruct (IRC.arguments event) as [|arg0 args]; [discriminate|].
  inversion H' as [E]. clear H'. subst msg. cbn [Models.rich_text Models.content] in *.
  destruct (TextFormatter.parseIRC arg0) as [|[ts text] [|run parsed]].
  - inversion Hrt; subst. reflexivity.
  - destruct (Models.is_normal ts); [discriminate|].
    inversion Hrt; subst. reflexivity.
  - inversion Hrt; subst. reflexivity.
Qed.

Lemma irc_message_content_is_plain_witness :
  let event := IRC.mkEvent "alice!a@host" "#room" [String IRCCtrl.BOLD "hello"] in
  let rt := [(Models.mkTextStyle None false true false, "hello")] in
  let msg := Models.mkMessage Models.ChanIRC "alice" "#room" "hello"
               Models.Text "2016-01-01" "12:00:00" (Some rt) in
  IRC.on_privmsg [] (fun _ => false) ("2016-01-01", "12:00:00") event
  = IRC.Sent msg /\
  Models.rich_text msg = Some rt /\
  Models.toPlain rt = Models.content msg.
Proof.
  intros event rt msg.
  assert (H : IRC.on_privmsg [] (fun _ => false) ("2016-01-01", "12:00:00") event
              = IRC.Sent msg) by reflexivity.
  split; [exact H|]. split; [reflexivity|].
  apply (irc_message_content_is_plain [] (fun _ => false)
           ("2016-01-01", "12:00:00") event msg rt);
    [left; exact H | reflexivity].
Defined.

(** ** The IRC round trip *)

Lemma toPlain_flush cur buf rest :
  Models.toPlain (TextFormatter.flush cur buf rest) = buf ++ Models.toPlain rest.
Proof. destruct buf; reflexivity. Qed.

Lemma is_ctrl_false (a : ascii) :
  Ascii.eqb a IRCCtrl.BOLD = false -> Ascii.eqb a IRCCtrl.ITALIC = false ->
  Ascii.eqb a IRCCtrl.UNDERLINE = false -> Ascii.eqb a IRCCtrl.RESET = false ->
  Ascii.eqb a IRCCtrl.COLOR = false -> IRCCtrl.is_ctrl a = false.
Proof.
  intros B I U R C. unfold IRCCtrl.is_ctrl. simpl.
  now rewrite B, I, U, R, C.
Qed.

(** The output invariant of the parser: the run texts, concatenated, are
    the parsed string without its control sequences. *)
Lemma scan_plain (s : string) :
  forall skip cur buf,
    Models.toPlain (TextFormatter.scan skip cur buf s)
    = buf ++ TextFormatter.strip_controls skip s.
Proof.
  induction s as [|a r IH]; intros skip cur buf.
  - simpl. now rewrite toPlain_flush.
  - destruct skip as [|k]; [|simpl; apply IH].
    cbn [TextFormatter.scan TextFormatter.strip_controls].
    destruct (Ascii.eqb a IRCCtrl.BOLD) eqn:B.
    { apply Ascii.eqb_eq in B. subst a. rewrite toPlain_flush, IH. reflexivity. }
    destruct (Ascii.eqb a IRCCtrl.ITALIC) eqn:I.
    { apply Ascii.eqb_eq in I. subst a. rewrite toPlain_flush, IH. reflexivity. }
    destruct (Ascii.eqb a IRCCtrl.UNDERLINE) eqn:U.
    { apply Ascii.eqb_eq in U. subst a. rewrite toPlain_flush, IH. reflexivity. }
    destruct (Ascii.eqb a IRCCtrl.RESET) eqn:R.
    { apply Ascii.eqb_eq in R. subst a. rewrite toPlain_flush, IH. reflexivity. }
    destruct (Ascii.eqb a IRCCtrl.COLOR) eqn:C.
    { destruct (TextFormatter.color_args r) as [[c n]|].
      - rewrite toPlain_flush, IH. reflexivity.
      - apply IH. }
    rewrite (is_ctrl_false a B I U R C), IH, append_assoc. reflexivity.
Qed.

Lemma parseIRC_plain (s : string) :
  Models.toPlain (TextFormatter.parseIRC s) = TextFormatter.strip_controls O s.
Proof.
  unfold TextFormatter.parseIRC.
  pose proof (scan_plain s O Models.normal "") as H. simpl in H.
  destruct (TextFormatter.scan O Models.normal "" s); [|exact H].
  rewrite <- H. reflexivity.
Qed.

Lemma strip_controls_skip (pre s : string) :
  TextFormatter.strip_controls (String.length pre) (pre ++ s)
  = TextFormatter.strip_controls O s.
Proof. induction pre as [|a pre IH]; simpl; [reflexivity | exact IH]. Qed.

Lemma strip_controls_text (text rest : string) :
  Str.forallb (fun c => negb (IRCCtrl.is_ctrl c)) text = true ->
  TextFormatter.strip_controls O (text ++ rest)
  = text ++ TextFormatter.strip_controls O rest.
Proof.
  induction text as [|a text IH]; intros H; [reflexivity|].
  cbn [Str.forallb] in H. apply andb_true_iff in H as [Ha Ht].
  apply negb_true_iff in Ha.
  cbn [String.append TextFormatter.strip_controls].
  assert (C : Ascii.eqb a IRCCtrl.COLOR = false).
  { destruct (Ascii.eqb a IRCCtrl.COLOR) eqn:E; [|reflexivity].
    apply Ascii.eqb_eq in E. subst a. discriminate. }
  now rewrite C, Ha, IH.
Qed.

Lemma span_upto_2_one (d : ascii) (rest : string) :
  Str.is_digit d = true -> Str.starts_with Str.is_digit rest = false ->
  Str.span_upto 2 Str.is_digit (String d rest) = String d "".
Proof.
  intros Hd Hr. cbn [Str.span_upto]. rewrite Hd.
  destruct rest as [|a rest]; [reflexivity|].
  cbn [Str.starts_with] in Hr. now rewrite Hr.
Qed.

Lemma span_upto_2_two (d1 d2 : ascii) (rest : string) :
  Str.is_digit d1 = true -> Str.is_digit d2 = true ->
  Str.span_upto 2 Str.is_digit (String d1 (String d2 rest))
  = String d1 (String d2 "").
Proof. intros H1 H2. cbn [Str.span_upto]. now rewrite H1, H2. Qed.

Lemma valid_index_cases (v : Z) :
  Models.valid_index v = true ->
  v = 0 \/ v = 1 \/ v = 2 \/ v = 3 \/ v = 4 \/ v = 5 \/ v = 6 \/ v = 7 \/
  v = 8 \/ v = 9 \/ v = 10 \/ v = 11 \/ v = 12 \/ v = 13 \/ v = 14 \/
  v = 15 \/ v = 16.
Proof.
  unfold Models.valid_index. intros H.
  apply andb_true_iff in H as [H1 H2]. apply Z.leb_le in H1, H2. lia.
Qed.

Ltac eval_of_int :=
  repeat match goal with
         | |- context [Str.of_int ?v] =>
             let s := eval vm_compute in (Str.of_int v) in
             change (Str.of_int v) with s
         end.

(** The decimal form of a palette index is read back as that index when
    no digit follows it. *)
Lemma index_group_of_int (v : Z) (rest : string) :
  Models.valid_index v = true ->
  Str.starts_with Str.is_digit rest = false ->
  TextFormatter.index_group (Str.of_int v ++ rest)
  = Some (v, String.length (Str.of_int v)).
Proof.
  intros V H. unfold TextFormatter.index_group.
  destruct (valid_index_cases v V)
    as [->|[->|[->|[->|[->|[->|[->|[->|[->|[->|[->|[->|[->|[->|[->|[->| ->]]]]]]]]]]]]]]]];
    eval_of_int; cbn [String.append];
    first [ rewrite span_upto_2_one by (reflexivity || exact H)
          | rewrite span_upto_2_two by reflexivity ];
    reflexivity.
Qed.

Lemma drop_append (pre s : string) : Str.drop (String.length pre) (pre ++ s) = s.
Proof.
  induction pre as [|a pre IH]; simpl; [now destruct s | exact IH].
Qed.

Lemma color_args_fg (f : Z) (rest : string) :
  Models.valid_index f = true ->
  Str.starts_with (fun c => Str.is_digit c || Ascii.eqb c ","%char) rest = false ->
  TextFormatter.color_args (Str.of_int f ++ rest)
  = Some (Models.mkColor f None, String.length (Str.of_int f)).
Proof.
  intros V H. unfold TextFormatter.color_args.
  rewrite index_group_of_int, drop_append; auto.
  - destruct rest as [|a rest]; [reflexivity|].
    cbn [Str.starts_with] in H. apply orb_false_iff in H as [_ H].
    now rewrite H.
  - destruct rest as [|a rest]; [reflexivity|].
    cbn [Str.starts_with] in *. now apply orb_false_iff in H as [H _].
Qed.

Lemma color_args_fg_bg (f b : Z) (rest : string) :
  Models.valid_index f = true -> Models.valid_index b = true ->
  Str.starts_with Str.is_digit rest = false ->
  TextFormatter.color_args ((Str.of_int f ++ "," ++ Str.of_int b) ++ rest)
  = Some (Models.mkColor f (Some b),
          String.length (Str.of_int f ++ "," ++ Str.of_int b)).
Proof.
  intros Vf Vb H. unfold TextFormatter.color_args.
  rewrite !append_assoc.
  rewrite index_group_of_int, drop_append by auto.
  cbn [String.append]. rewrite Ascii.eqb_refl.
  rewrite index_group_of_int by auto.
  rewrite length_append. cbn [String.append String.length].
  f_equal. f_equal. lia.
Qed.

Lemma color_args_code (c : Models.Color) (rest : string) :
  Models.valid_color c = true ->
  Str.starts_with (fun c => Str.is_digit c || Ascii.eqb c ","%char) rest = false ->
  exists c', TextFormatter.color_args (IRC.color_code c ++ rest)
             = Some (c', String.length (IRC.color_code c)).
Proof.
  intros V H. unfold Models.valid_color in V.
  apply andb_true_iff in V as [Vf Vb].
  unfold IRC.color_code, IRC.bg_truthy.
  destruct (Models.bg c) as [b|].
  - destruct (b =? 0).
    + eexists. now apply color_args_fg.
    + eexists. apply color_args_fg_bg; auto.
      destruct rest as [|a rest]; [reflexivity|].
      cbn [Str.starts_with] in *. now apply orb_false_iff in H as [H _].
  - eexists. now apply color_args_fg.
Qed.

Lemma join_ctrl (ts : Models.TextStyle) :
  Str.join (IRC.ctrl ts) = IRC.ctrl_flags ts ++ IRC.ctrl_color ts.
Proof.
  unfold IRC.ctrl, IRC.ctrl_flags, IRC.ctrl_color, IRC.color_code.
  destruct (Models.is_bold ts), (Models.is_italic ts), (Models.is_underline ts),
    (Models.color ts) as [c|];
    cbn [app Str.join fold_right String.append];
    rewrite ?append_nil_r; reflexivity.
Qed.

Lemma strip_controls_flags (ts : Models.TextStyle) (rest : string) :
  TextFormatter.strip_controls O (IRC.ctrl_flags ts ++ rest)
  = TextFormatter.strip_controls O rest.
Proof.
  unfold IRC.ctrl_flags.
  destruct (Models.is_bold ts), (Models.is_italic ts), (Models.is_underline ts);
    reflexivity.
Qed.

Lemma strip_controls_color (ts : Models.TextStyle) (rest : string) :
  Models.valid_style ts = true ->
  (Models.has_color ts = true ->
   Str.starts_with (fun c => Str.is_digit c || Ascii.eqb c ","%char) rest = false) ->
  TextFormatter.strip_controls O (IRC.ctrl_color ts ++ rest)
  = TextFormatter.strip_controls O rest.
Proof.
  unfold Models.valid_style, Models.has_color, IRC.ctrl_color.
  destruct (Models.color ts) as [c|]; intros V H; [|reflexivity].
  destruct (color_args_code c rest V (H eq_refl)) as [c' E].
  cbn [String.append TextFormatter.strip_controls].
  rewrite Ascii.eqb_refl, E. apply strip_controls_skip.
Qed.

(** What the parser keeps of the rendering of one safe run. *)
Lemma strip_controls_format_run (run : Models.TextStyle * string) (rest : string) :
  IRC.round_trip_safe run = true ->
  TextFormatter.strip_controls O (IRC.format_run run ++ rest)
  = snd run ++ TextFormatter.strip_controls O rest.
Proof.
  destruct run as [ts text]. unfold IRC.round_trip_safe. intros H.
  apply andb_true_iff in H as [H Hstart].
  apply andb_true_iff in H as [Htext Hvalid].
  cbn [snd]. unfold IRC.format_run.
  destruct text as [|a text]; [reflexivity|].
  destruct (Models.is_normal ts); [now apply strip_controls_text|].
  rewrite join_ctrl, !append_assoc, strip_controls_flags.
  rewrite strip_controls_color; auto.
  - rewrite strip_controls_text by exact Htext.
    reflexivity.
  - intros Hc. rewrite Hc in Hstart. cbn [negb orb] in Hstart.
    apply negb_true_iff in Hstart. exact Hstart.
Qed.

(** C1 (amended).  Rendering to the IRC control-code format and parsing
    the result back keeps the plain text of every rich text whose runs
    are safe for the format: no control character in a text, colour
    indices in the palette, and no decimal digit or comma at the start of
    the text of a coloured run. *)
Theorem irc_round_trip_plain (r : Models.RichText) :
  forallb IRC.round_trip_safe r = true ->
  Models.toPlain (TextFormatter.parseIRC (IRC.formatRichText r))
  = Models.toPlain r.
Proof.
  intros H. rewrite parseIRC_plain, irc_formatRichText_join.
  induction r as [|run r IH]; [reflexivity|].
  cbn [forallb] in H. apply andb_true_iff in H as [Hrun Hr].
  cbn [map Str.join fold_right].
  change (fold_right append "" (map IRC.format_run r))
    with (Str.join (map IRC.format_run r)).
  rewrite (strip_controls_format_run run _ Hrun), (IH Hr).
  reflexivity.
Qed.

Lemma irc_round_trip_plain_witness :
  let r := [ (Models.mkTextStyle (Some (Models.mkColor 4 None)) false false false,
              "[alice] ");
             (Models.mkTextStyle (Some (Models.mkColor 3 (Some 12))) true true true,
              "fish");
             (Models.normal, "hello 42") ] in
  forallb IRC.round_trip_safe r = true /\
  Models.toPlain (TextFormatter.parseIRC (IRC.formatRichText r))
  = "[alice] fishhello 42".
Proof.
  intros r. split; [reflexivity|].
  exact (irc_round_trip_plain r eq_refl).
Defined.

(** C1 as stated fails.  The format has no escape for a control
    character that occurs in a text: the parser takes it for markup and
    drops it.  And the renderer writes a colour index without padding, so
    a digit that starts the text of a coloured run is read back as part
    of the colour code and is lost from the plain text. *)
Lemma irc_round_trip_loses_text :
  let r1 := [ (Models.normal, String "a" (String IRCCtrl.BOLD "b")) ] in
  let r2 := [ (Models.mkTextStyle (Some (Models.mkColor 1 None)) false false false,
               "2") ] in
  (IRC.formatRichText r1 = String "a" (String IRCCtrl.BOLD "b") /\
   Models.toPlain (TextFormatter.parseIRC (IRC.formatRichText r1)) = "ab" /\
   Models.toPlain (TextFormatter.parseIRC (IRC.formatRichText r1))
   <> Models.toPlain r1) /\
  (IRC.formatRichText r2
   = String IRCCtrl.COLOR (String "1" (String "2" (String IRCCtrl.RESET ""))) /\
   Models.toPlain (TextFormatter.parseIRC (IRC.formatRichText r2)) = "" /\
   Models.toPlain r2 = "2" /\
   Models.toPlain (TextFormatter.parseIRC (IRC.formatRichText r2))
   <> Models.toPlain r2).
Proof. repeat split; discriminate. Qed.

(** * Part III: further properties of the sources *)

(** ** [xss.py] *)

Lemma strip_tags_fixed (s : string) :
  (forall pre post,
     s = pre ++ String "<" post ->
     Str.starts_with (Ascii.eqb ">") post = true \/ Str.mem ">"%char post = false) ->
  Xss.strip_tags s = s.
Proof.
  induction s as [|a r IH]; intros H; [reflexivity|].
  rewrite strip_tags_nomatch.
  - rewrite IH; [reflexivity|].
    intros pre post E. apply (H (String a pre) post). simpl. now rewrite E.
  - destruct (Ascii.eqb a "<") eqn:A.
    + apply Ascii.eqb_eq in A. subst a.
      unfold Re.tag. rewrite Ascii.eqb_refl.
      destruct (H "" r eq_refl) as [S|M].
      * destruct r as [|b r']; [discriminate|].
        cbn [Str.starts_with] in S. apply Ascii.eqb_eq in S. subst b.
        reflexivity.
      * apply break_at_None in M. now rewrite M.
    + apply tag_only_at_lt. intros ->. discriminate.
Qed.

(** X1.  Stripping tags is idempotent: the text that [re.sub] leaves
    holds nothing the pattern would match in a second pass. *)
Theorem strip_tags_idempotent (message : string) :
  Xss.strip_tags (Xss.strip_tags message) = Xss.strip_tags message.
Proof.
  apply strip_tags_fixed. intros pre post E.
  exact (strip_tags_lt message pre post E).
Qed.

(** X2.  A text with no ['<'] and no ['&'] passes through
    [cooked_unescape] unchanged, whatever the entity table. *)
Theorem cooked_unescape_plain (replace_charref : string -> string)
  (message : string) :
  Str.mem "<"%char message = false -> Str.mem "&"%char message = false ->
  Xss.cooked_unescape replace_charref message = message.
Proof.
  intros Hlt Hamp. unfold Xss.cooked_unescape, Html.unescape.
  rewrite (strip_tags_no_lt message Hlt), Hamp. reflexivity.
Qed.

Lemma cooked_unescape_plain_witness :
  Xss.cooked_unescape (fun g => "?") "2 > 1; fish > room" = "2 > 1; fish > room".
Proof.
  apply (cooked_unescape_plain (fun g => "?") "2 > 1; fish > room");
    reflexivity.
Defined.

Lemma md_escape_char_no_angle (a c : ascii) :
  c = "<"%char \/ c = ">"%char -> Str.mem c (Xss.md_escape_char a) = false.
Proof.
  intros [-> | ->]; destruct a as [[] [] [] [] [] [] [] []]; reflexivity.
Qed.

(** X3.  No angle bracket survives [md_escape]: its result holds neither
    ['<'] nor ['>'], whatever the text. *)
Theorem md_escape_no_angle_bracket (text : string) :
  Str.mem "<"%char (Xss.md_escape text) = false /\
  Str.mem ">"%char (Xss.md_escape text) = false.
Proof.
  rewrite md_escape_charwise.
  split; (induction text as [|a text IH]; [reflexivity|]);
    cbn [Str.subst_chars]; rewrite mem_append, IH, orb_false_r;
    apply md_escape_char_no_angle; auto.
Qed.

(** X4.  [md_escape] works character by character: escaping a
    concatenation is concatenating the escaped parts, and the result is
    never shorter than the text. *)
Theorem md_escape_append (s t : string) :
  Xss.md_escape (s ++ t) = Xss.md_escape s ++ Xss.md_escape t /\
  (String.length s <= String.length (Xss.md_escape s))%nat.
Proof.
  rewrite !md_escape_charwise. split; [apply subst_chars_append|].
  induction s as [|a s IH]; [apply le_n|].
  cbn [Str.subst_chars]. rewrite length_append. cbn [String.length].
  assert (1 <= String.length (Xss.md_escape_char a))%nat
    by (destruct a as [[] [] [] [] [] [] [] []]; vm_compute; lia).
  lia.
Qed.

(** ** The renderers *)

Lemma strip_tags_wrapper (name rest : string) :
  name <> "" -> Str.mem ">"%char name = false ->
  Xss.strip_tags (String "<" (name ++ String ">" rest)) = Xss.strip_tags rest.
Proof. intros Hne Hm. exact (strip_tags_match name rest Hne Hm). Qed.

(** The tags that the strip removes from a Telegram rendering are
    exactly its wrappers. *)
Lemma strip_tags_telegram (rt : Models.RichText) :
  Xss.strip_tags (Telegram.formatRichText rt true)
  = Html.escape (Models.toPlain rt) true.
Proof.
  rewrite telegram_formatRichText_join. unfold Models.toPlain.
  induction rt as [|[ts text] rt IH]; [reflexivity|].
  cbn [map Str.join fold_right snd].
  change (fold_right append "" (map (Telegram.format_run true) rt))
    with (Str.join (map (Telegram.format_run true) rt)).
  change (fold_right append "" (map snd rt)) with (Str.join (map snd rt)).
  rewrite escape_append, <- IH. unfold Telegram.format_run.
  destruct (Models.is_bold ts); [|destruct (Models.is_italic ts)].
  - rewrite !append_assoc.
    change ("<b>" ++ ?x) with (String "<" ("b" ++ String ">" x)).
    rewrite strip_tags_wrapper by (discriminate || reflexivity).
    rewrite strip_tags_text by apply escape_no_lt.
    change ("</b>" ++ ?x) with (String "<" ("/b" ++ String ">" x)).
    now rewrite strip_tags_wrapper by (discriminate || reflexivity).
  - rewrite !append_assoc.
    change ("<i>" ++ ?x) with (String "<" ("i" ++ String ">" x)).
    rewrite strip_tags_wrapper by (discriminate || reflexivity).
    rewrite strip_tags_text by apply escape_no_lt.
    change ("</i>" ++ ?x) with (String "<" ("/i" ++ String ">" x)).
    now rewrite strip_tags_wrapper by (discriminate || reflexivity).
  - apply strip_tags_text, escape_no_lt.
Qed.

(** X5.  The Telegram rendering carries the plain text and nothing else:
    stripping its tags and unescaping its entities, as [cooked_unescape]
    does, gives back the plain text of the rich text. *)
Theorem telegram_render_then_unescape
  (replace_charref : string -> string)
  (decodes : Html.decodes_escapes replace_charref) (rt : Models.RichText) :
  Xss.cooked_unescape replace_charref (Telegram.formatRichText rt true)
  = Models.toPlain rt.
Proof.
  unfold Xss.cooked_unescape. rewrite strip_tags_telegram.
  now apply unescape_escape.
Qed.

Lemma telegram_render_then_unescape_witness :
  Html.decodes_escapes Html.replace_charref_basic /\
  Xss.cooked_unescape Html.replace_charref_basic
    (Telegram.formatRichText
       [ (Models.mkTextStyle None false true false, "a<b");
         (Models.normal, " & ");
         (Models.mkTextStyle None true false false, "'c'") ] true)
  = "a<b & 'c'".
Proof.
  assert (D : Html.decodes_escapes Html.replace_charref_basic)
    by (repeat split; reflexivity).
  split; [exact D|].
  exact (telegram_render_then_unescape Html.replace_charref_basic D
           [ (Models.mkTextStyle None false true false, "a<b");
             (Models.normal, " & ");
             (Models.mkTextStyle None true false false, "'c'") ]).
Defined.

(** X6.  The three renderers work run by run: the rendering of a
    concatenation of rich texts is the concatenation of the renderings
    (for the BBCode renderer, when neither part raises). *)
Theorem renderers_append (r1 r2 : Models.RichText) (escape : bool) :
  IRC.formatRichText (r1 ++ r2)%list
  = IRC.formatRichText r1 ++ IRC.formatRichText r2 /\
  Telegram.formatRichText (r1 ++ r2)%list escape
  = Telegram.formatRichText r1 escape ++ Telegram.formatRichText r2 escape /\
  DiscourseBabble.formatRichText (r1 ++ r2)%list
  = match DiscourseBabble.formatRichText r1, DiscourseBabble.formatRichText r2 with
    | Some o1, Some o2 => Some (o1 ++ o2)
    | _, _ => None
    end.
Proof.
  rewrite !irc_formatRichText_join, !telegram_formatRichText_join,
    !babble_formatRichText_join, !map_app, !join_app, join_opt_app.
  repeat split.
Qed.

Lemma is_normal_flags (ts : Models.TextStyle) :
  Models.is_normal ts = true ->
  Models.is_bold ts = false /\ Models.is_italic ts = false.
Proof.
  unfold Models.is_normal, Models.is_bold, Models.is_italic.
  destruct (Models.bold ts), (Models.italic ts); simpl; auto; discriminate.
Qed.

(** X7.  A rich text whose runs are all of normal style is rendered as
    its plain text by the IRC and the BBCode renderer and by the
    Telegram renderer without escaping, and as its escaped plain text by
    the Telegram renderer with escaping. *)
Theorem normal_runs_render_plain (rt : Models.RichText) :
  forallb (fun run => Models.is_normal (fst run)) rt = true ->
  IRC.formatRichText rt = Models.toPlain rt /\
  DiscourseBabble.formatRichText rt = Some (Models.toPlain rt) /\
  Telegram.formatRichText rt false = Models.toPlain rt /\
  Telegram.formatRichText rt true = Html.escape (Models.toPlain rt) true.
Proof.
  intros H.
  rewrite irc_formatRichText_join, babble_formatRichText_join,
    !telegram_formatRichText_join.
  unfold Models.toPlain.
  induction rt as [|[ts text] rt IH]; [repeat split|].
  cbn [forallb fst] in H. apply andb_true_iff in H as [Hts Hrt].
  destruct (IH Hrt) as (I1 & I2 & I3 & I4).
  destruct (is_normal_flags ts Hts) as [Hb Hi].
  cbn [map Str.join Str.join_opt fold_right snd].
  change (fold_right append "" (map snd rt)) with (Str.join (map snd rt)).
  change (fold_right append "" (map IRC.format_run rt))
    with (Str.join (map IRC.format_run rt)).
  change (fold_right append "" (map (Telegram.format_run false) rt))
    with (Str.join (map (Telegram.format_run false) rt)).
  change (fold_right append "" (map (Telegram.format_run true) rt))
    with (Str.join (map (Telegram.format_run true) rt)).
  rewrite I1, I2, I3, I4, escape_append.
  unfold IRC.format_run, DiscourseBabble.format_run, Telegram.format_run.
  rewrite Hts, Hb, Hi.
  destruct text; repeat split.
Qed.

Lemma normal_runs_render_plain_witness :
  let rt := [ (Models.normal, "fish <"); (Models.normal, "room>") ] in
  IRC.formatRichText rt = "fish <room>" /\
  Telegram.formatRichText rt true = "fish &lt;room&gt;".
Proof.
  intros rt.
  destruct (normal_runs_render_plain rt eq_refl) as (H1 & _ & _ & H4).
  split; [exact H1 | exact H4].
Defined.

(** ** Outgoing lines *)

Lemma foreground_num_valid (sender : string) :
  exists fg,
    IRCSend.foreground_num sender = Some fg /\
    In fg IRCSend.color_avail /\ Models.valid_index fg = true.
Proof.
  unfold IRCSend.foreground_num.
  change (Z.of_nat (List.length IRCSend.color_avail)) with 9.
  pose proof (Z.mod_pos_bound (Py.ord_sum sender) 9 eq_refl) as B.
  remember (Py.ord_sum sender mod 9) as k eqn:E. clear E.
  assert (C : k = 0 \/ k = 1 \/ k = 2 \/ k = 3 \/ k = 4 \/ k = 5 \/ k = 6 \/
              k = 7 \/ k = 8) by lia.
  repeat (destruct C as [->|C];
          [eexists; split; [reflexivity | split; [simpl; tauto | reflexivity]]|]).
  subst. eexists; split; [reflexivity | split; [simpl; tauto | reflexivity]].
Qed.

(** X8.  The colour that [send_msg] picks for a sender is always one of
    the nine of [color_avail]: the lookup in the tuple never fails, and
    the result is a palette index between 2 and 13, without background. *)
Theorem sender_color_in_palette (a : ascii) (r : string) :
  exists fg,
    IRCSend.sender_color (Some (String a r))
    = Some (Some (Models.mkColor fg None)) /\
    In fg IRCSend.color_avail /\ 2 <= fg <= 13 /\
    Models.valid_color (Models.mkColor fg None) = true.
Proof.
  destruct (foreground_num_valid (String a r)) as (fg & Hfg & Hin & V).
  exists fg. unfold IRCSend.sender_color. rewrite Hfg.
  split; [reflexivity|]. split; [exact Hin|]. split.
  - simpl in Hin. lia.
  - unfold Models.valid_color. cbn [Models.fg Models.bg]. now rewrite V.
Qed.

Lemma style_init_color (fg : Z) (i b u : bool) :
  Models.valid_index fg = true ->
  Models.TextStyle_init (Some (Models.mkColor fg None)) i b u
  = Some (Models.mkTextStyle (Some (Models.mkColor fg None)) i b u).
Proof.
  intros V. unfold Models.TextStyle_init, Models.valid_style, Models.valid_color.
  cbn [Models.color Models.fg Models.bg]. now rewrite V.
Qed.

(** X9.  For a sender that is not empty, the line that the IRC
    [send_msg] hands to the connection never fails on its colour and has
    a fixed shape: the colour code of the sender and ["[sender] "] closed
    by a reset, then the reply quote in colour 15 closed by a reset (left
    out altogether when the quote is empty), then the content as it is. *)
Theorem irc_send_msg_line (quote_open quote_close content : string)
  (a : ascii) (r : string) (first : bool) (reply_to reply_text : option string) :
  exists fg,
    IRCSend.foreground_num (String a r) = Some fg /\
    IRCSend.send_msg quote_open quote_close content (Some (String a r))
      first reply_to reply_text
    = Py.bind (IRCSend.reply_quote quote_open quote_close first reply_to reply_text)
        (fun q =>
           Some (String IRCCtrl.COLOR
                   (Str.of_int fg ++ "[" ++ String a r ++ "] " ++
                    String IRCCtrl.RESET
                      (match q with
                       | EmptyString => ""
                       | _ => String IRCCtrl.COLOR ("15" ++ q ++ String IRCCtrl.RESET "")
                       end ++ content)))).
Proof.
  destruct (foreground_num_valid (String a r)) as (fg & Hfg & _ & V).
  exists fg. split; [exact Hfg|].
  unfold IRCSend.send_msg, IRCSend.sender_color. rewrite Hfg. cbn [Py.bind].
  destruct (IRCSend.reply_quote quote_open quote_close first reply_to reply_text)
    as [q|]; [|reflexivity].
  cbn [Py.bind]. unfold IRCSend.rich_message.
  rewrite (style_init_color fg false false false V).
  cbn [Py.bind]. change (Models.TextStyle_init (Some (Models.mkColor 15 None)) false false false)
    with (Some (Models.mkTextStyle (Some (Models.mkColor 15 None)) false false false)).
  change (Models.TextStyle_init None false false false) with (Some Models.normal).
  cbn [Py.bind]. rewrite irc_formatRichText_join.
  cbn [map Str.join fold_right]. f_equal.
  assert (Hc : IRC.format_run (Models.normal, content) = content)
    by (destruct content; reflexivity).
  rewrite Hc, append_nil_r.
  assert (Hq : IRC.format_run
                 (Models.mkTextStyle (Some (Models.mkColor 15 None)) false false false, q)
               = match q with
                 | EmptyString => ""
                 | _ => String IRCCtrl.COLOR ("15" ++ q ++ String IRCCtrl.RESET "")
                 end)
    by (destruct q; reflexivity).
  rewrite Hq.
  unfold IRC.format_run. cbn [String.append].
  change (Models.is_normal _) with false. cbv iota.
  rewrite join_ctrl. unfold IRC.ctrl_flags, IRC.ctrl_color, IRC.color_code.
  cbn [Models.is_bold Models.is_italic Models.is_underline Models.bold
       Models.italic Models.underline Models.color IRC.bg_truthy Models.bg
       Models.fg String.append].
  rewrite !append_assoc. cbn [String.append].
  rewrite !append_assoc. cbn [String.append]. reflexivity.
Qed.

(** X10.  Without a sender the IRC [send_msg] sends the content as it
    is, without colour and without the reply quote (which is still
    computed, so a missing [reply_to] still raises); an empty sender
    gives ["[] "] before the content. *)
Theorem irc_send_msg_without_sender (quote_open quote_close content : string)
  (first : bool) (reply_to reply_text : option string) :
  IRCSend.send_msg quote_open quote_close content None first reply_to reply_text
  = Py.bind (IRCSend.reply_quote quote_open quote_close first reply_to reply_text)
      (fun _ => Some content) /\
  IRCSend.send_msg quote_open quote_close content (Some "") first reply_to reply_text
  = Py.bind (IRCSend.reply_quote quote_open quote_close first reply_to reply_text)
      (fun _ => Some ("[] " ++ content)).
Proof.
  unfold IRCSend.send_msg, IRCSend.sender_color. cbn [Py.bind].
  destruct (IRCSend.reply_quote quote_open quote_close first reply_to reply_text)
    as [q|]; [|split; reflexivity].
  cbn [Py.bind]. unfold IRCSend.rich_message.
  change (Models.TextStyle_init None false false false) with (Some Models.normal).
  cbn [Py.bind]. rewrite !irc_formatRichText_join.
  cbn [map Str.join fold_right].
  split.
  - rewrite append_nil_r. destruct content; reflexivity.
  - rewrite append_nil_r. reflexivity.
Qed.




(** X12.  In the XMPP [send_msg] the reply quote is assigned inside the
    test on the length of the reply text, so a reply text of at most
    five characters is not quoted at all: the body is the same as for a
    message without a reply.  Without a sender the body is the content
    alone. *)
Theorem xmpp_short_reply_not_quoted (quote_open quote_close content : string)
  (sender : option string) (reply_to reply_text : string) :
  (String.length reply_text <= 5)%nat ->
  XMPP.send_msg quote_open quote_close content sender true
    (Some reply_to) (Some reply_text)
  = XMPP.send_msg quote_open quote_close content sender true None None /\
  XMPP.send_msg quote_open quote_close content sender true
    (Some reply_to) (Some reply_text)
  = Some (match sender with
          | None => content
          | Some s => "[" ++ s ++ "] " ++ content
          end).
Proof.
  intros H. unfold XMPP.send_msg, XMPP.reply_quote.
  apply Nat.ltb_ge in H. rewrite H. cbn [Py.bind].
  split; [reflexivity|]. now destruct sender.
Qed.

Lemma xmpp_short_reply_not_quoted_witness :
  XMPP.send_msg "<<" ">>" "same here" (Some "bob") true (Some "alice") (Some "hello")
  = Some "[bob] same here".
Proof.
  apply (xmpp_short_reply_not_quoted "<<" ">>" "same here" (Some "bob")
           "alice" "hello").
  simpl. lia.
Defined.

(** X13.  Whenever the BBCode [rich_message] is rendered for a sender
    that is not empty, no palette lookup fails, and the post has a fixed
    shape: the sender in bold in its colour, the channel line and the
    reply line in grey, then the content escaped by [md_escape]. *)
Theorem babble_post_text (users_label content : string) (a : ascii) (r : string)
  (reply_quote : string) (channel : option string) :
  exists fg rgb,
    IRCSend.foreground_num (String a r) = Some fg /\
    DiscourseBabble.getitem DiscourseBabble.IRC_COLOR_RGB fg = Some rgb /\
    BabbleSend.post_text users_label content (Some (String a r))
      reply_quote channel
    = Some ("[b][color=" ++ rgb ++ "]" ++ String a r ++ "[/color][/b]" ++
            "[color=#888] " ++ BabbleSend.format_channel channel ++ " " ++
            users_label ++ String "010" "[/color]" ++
            "[color=#888]" ++ reply_quote ++ String "010" "[/color]" ++
            Xss.md_escape content).
Proof.
  destruct (foreground_num_valid (String a r)) as (fg & Hfg & _ & V).
  destruct (getitem_valid fg V) as [rgb Hrgb].
  exists fg, rgb. split; [exact Hfg|]. split; [exact Hrgb|].
  unfold BabbleSend.post_text, IRCSend.sender_color. rewrite Hfg.
  cbn [Py.bind]. unfold BabbleSend.rich_message.
  rewrite (style_init_color fg false true false V).
  change (Models.TextStyle_init (Some (Models.mkColor 16 None)) false false false)
    with (Some (Models.mkTextStyle (Some (Models.mkColor 16 None)) false false false)).
  change (Models.TextStyle_init None false false false) with (Some Models.normal).
  cbn [Py.bind]. rewrite babble_formatRichText_join.
  cbn [map Str.join_opt].
  assert (H4 : DiscourseBabble.format_run (Models.normal, Xss.md_escape content)
               = Some (Xss.md_escape content))
    by (destruct (Xss.md_escape content); reflexivity).
  rewrite H4.
  assert (H3 : DiscourseBabble.format_run
                 (Models.mkTextStyle (Some (Models.mkColor 16 None)) false false false,
                  reply_quote ++ String "010" "")
               = Some ("[color=#888]" ++ (reply_quote ++ String "010" "") ++ "[/color]")).
  { destruct reply_quote; reflexivity. }
  rewrite H3.
  assert (H2 : forall t,
             DiscourseBabble.format_run
               (Models.mkTextStyle (Some (Models.mkColor 16 None)) false false false,
                String " " t)
             = Some ("[color=#888]" ++ String " " t ++ "[/color]"))
    by reflexivity.
  cbn [String.append]. rewrite H2.
  assert (H1 : DiscourseBabble.format_run
                 (Models.mkTextStyle (Some (Models.mkColor fg None)) false true false,
                  String a r)
               = Some ("[b]" ++ ("[color=" ++ rgb ++ "]" ++ String a r ++ "[/color]")
                       ++ "[/b]")).
  { unfold DiscourseBabble.format_run. change (Models.is_normal _) with false.
    cbv iota. unfold DiscourseBabble.styled, DiscourseBabble.color,
      DiscourseBabble.fgcolor.
    cbn [Models.color IRC.bg_truthy Models.bg Models.fg]. rewrite Hrgb.
    reflexivity. }
  rewrite H1. f_equal.
  repeat (progress (rewrite ?append_assoc, ?append_nil_r; cbn [String.append])).
  reflexivity.
Qed.

(** ** The IRC adapter, continued *)

(** X14.  A message that [on_privmsg] sends comes from the nick that
    stands before the first ['!'] of the event source, and that nick is
    not on the black list; the message is an IRC message for the target
    of the event, its type is [Command] or [Text] as [is_cmd] says of
    its content, and it carries the date and time of the clock. *)
Theorem irc_on_privmsg_sent
  (blacklist : list string) (is_cmd : string -> bool) (now : string * string)
  (event : IRC.Event) (msg : Models.Message) :
  IRC.on_privmsg blacklist is_cmd now event = IRC.Sent msg ->
  (exists rest,
     IRC.source event = Models.sender msg ++ String "!" rest /\
     Str.mem "!"%char (Models.sender msg) = false) /\
  ~ In (Models.sender msg) blacklist /\
  Models.channel msg = Models.ChanIRC /\
  Models.receiver msg = IRC.target event /\
  Models.mtype msg
  = (if is_cmd (Models.content msg) then Models.Command else Models.Text) /\
  (Models.date msg, Models.time msg) = now.
Proof.
  unfold IRC.on_privmsg. intros H.
  destruct (Str.break_at "!" (IRC.source event)) as [[irc_nick rest]|] eqn:B;
    [|discriminate].
  destruct (existsb (String.eqb irc_nick) blacklist) eqn:L; [discriminate|].
  destruct (IRC.arguments event) as [|arg0 args]; [discriminate|].
  inversion H; subst msg; clear H. cbn.
  apply break_at_Some in B as [E M].
  split; [exists rest; auto|]. split.
  - intros Hin.
    assert (existsb (String.eqb irc_nick) blacklist = true).
    { apply existsb_exists. exists irc_nick. split; [exact Hin|].
      apply String.eqb_refl. }
    congruence.
  - repeat split. now destruct now.
Qed.

Lemma irc_on_privmsg_sent_witness :
  let event := IRC.mkEvent "alice!a@host" "#room" ["/nick fish"] in
  exists msg,
    IRC.on_privmsg ["spammer"] (String.prefix "/") ("2016-01-01", "12:00:00") event
    = IRC.Sent msg /\
    Models.sender msg = "alice" /\ Models.mtype msg = Models.Command.
Proof.
  intros event. eexists. split; [reflexivity|].
  destruct (irc_on_privmsg_sent ["spammer"] (String.prefix "/")
              ("2016-01-01", "12:00:00") event _ eq_refl) as (_ & _ & _ & _ & T & _).
  split; [reflexivity | exact T].
Defined.

(** ** The nickname store *)

Lemma truthy_nonempty (s : option string) :
  Py.truthy s = true -> exists a r, s = Some (String a r).
Proof. destruct s as [[|a r]|]; try discriminate. eauto. Qed.

(** X15.  [get_nickname] never answers with an empty name: it gives the
    stored nickname when that is not empty, else the user name when that
    is not empty, else the display name when that is not empty, else
    ["tg-"] followed by the user id. *)
Theorem get_nickname_nonempty (st : MemNickStore.t) (user_id : Z)
  (username display_name : option string) :
  fst (MemNickStore.get_nickname st user_id username display_name)
  = match MemNickStore.usernicks st user_id, username, display_name with
    | Some (String a r), _, _ => String a r
    | _, Some (String a r), _ => String a r
    | _, _, Some (String a r) => String a r
    | _, _, _ => "tg-" ++ Str.of_int user_id
    end /\
  fst (MemNickStore.get_nickname st user_id username display_name) <> "".
Proof.
  unfold MemNickStore.get_nickname.
  destruct (MemNickStore.usernicks st user_id) as [[|a r]|];
    destruct username as [[|b u]|]; destruct display_name as [[|c d]|];
    cbn; (split; [reflexivity | discriminate]).
Qed.

(** X16.  A nickname that was set is the one [get_nickname] answers
    with, whatever user name and display name come with the request; and
    the first user name seen for a user without a nickname becomes the
    nickname and stays it, also when later requests carry another user
    name. *)
Theorem nickname_sticks (st : MemNickStore.t) (user_id : Z)
  (a : ascii) (r : string) (username display_name : option string) :
  let nick := String a r in
  fst (MemNickStore.get_nickname (MemNickStore.set_nickname st user_id nick)
         user_id username display_name) = nick /\
  (Py.truthy (MemNickStore.usernicks st user_id) = false ->
   let '(first, st') :=
     MemNickStore.get_nickname st user_id (Some nick) display_name in
   first = nick /\
   forall username' display_name',
     fst (MemNickStore.get_nickname st' user_id username' display_name') = nick).
Proof.
  intros nick. split.
  - unfold MemNickStore.get_nickname, MemNickStore.set_nickname.
    cbn [MemNickStore.usernicks]. rewrite Z.eqb_refl. subst nick.
    destruct username as [[|b u]|]; reflexivity.
  - intros H. unfold MemNickStore.get_nickname at 1. rewrite H. subst nick.
    cbn. split; [reflexivity|]. intros username' display_name'.
    unfold MemNickStore.get_nickname. cbn. rewrite Z.eqb_refl.
    destruct username' as [[|b u]|]; reflexivity.
Qed.

Lemma nickname_sticks_witness :
  let '(first, st') :=
    MemNickStore.get_nickname MemNickStore.init 42 (Some "alice") (Some "Alice A") in
  first = "alice" /\
  fst (MemNickStore.get_nickname st' 42 (Some "alice_new") None) = "alice".
Proof.
  destruct (nickname_sticks MemNickStore.init 42 "a" "lice" None (Some "Alice A"))
    as [_ H].
  specialize (H eq_refl). cbn in H. destruct H as [H1 H2].
  split; [exact H1 | exact (H2 (Some "alice_new") None)].
Defined.

(** X17.  When a request carries a user name, the store afterwards maps
    the nickname it answered with back to that user name. *)
Theorem get_nickname_records_username (st : MemNickStore.t) (user_id : Z)
  (username display_name : option string) :
  Py.truthy username = true ->
  let '(nick, st') :=
    MemNickStore.get_nickname st user_id username display_name in
  MemNickStore.get_username st' nick = username.
Proof.
  intros H. apply truthy_nonempty in H as (b & u & ->).
  unfold MemNickStore.get_nickname, MemNickStore.get_username.
  destruct (MemNickStore.usernicks st user_id) as [[|a r]|];
    cbn -[String.eqb]; now rewrite String.eqb_refl.
Qed.

Lemma get_nickname_records_username_witness :
  let '(nick, st') :=
    MemNickStore.get_nickname
      (MemNickStore.set_nickname MemNickStore.init 7 "fish") 7 (Some "bob") None in
  nick = "fish" /\ MemNickStore.get_username st' "fish" = Some "bob".
Proof.
  pose proof (get_nickname_records_username
                (MemNickStore.set_nickname MemNickStore.init 7 "fish") 7
                (Some "bob") None eq_refl) as H.
  cbn in H. split; [reflexivity | exact H].
Defined.

(** X18.  A request for one user never changes the nickname stored for
    another user. *)
Theorem get_nickname_other_users (st : MemNickStore.t) (user_id other : Z)
  (username display_name : option string) :
  other <> user_id ->
  MemNickStore.usernicks
    (snd (MemNickStore.get_nickname st user_id username display_name)) other
  = MemNickStore.usernicks st other.
Proof.
  intros H. apply Z.eqb_neq in H. unfold MemNickStore.get_nickname.
  destruct (MemNickStore.usernicks st user_id) as [[|a r]|];
    destruct username as [[|b u]|]; cbn; rewrite ?H; reflexivity.
Qed.

Lemma get_nickname_other_users_witness :
  MemNickStore.usernicks
    (snd (MemNickStore.get_nickname
            (MemNickStore.set_nickname MemNickStore.init 1 "fish")
            2 (Some "bob") None)) 1
  = Some "fish".
Proof.
  apply (get_nickname_other_users
           (MemNickStore.set_nickname MemNickStore.init 1 "fish") 2 1
           (Some "bob") None).
  discriminate.
Defined.

(** ** Uploads *)

(** X19.  The upload methods answer with a URL or with an error, never
    with both and never with neither, whatever the stores and the
    download do; so the caller that finds no error can use the URL. *)
Theorem upload_url_or_error
  (download_file : string -> option string)
  (photo_store : option (string -> option string -> option string))
  (file_store : option (string -> string -> string -> option string))
  (md5 webp2png : string -> string)
  (store : Upload.StickerStore) (file_id : string)
  (doc : Upload.Document) (filetype : string) :
  Upload.one_of (Upload.upload_photo download_file photo_store file_id) /\
  Upload.one_of
    (fst (Upload.upload_sticker download_file photo_store md5 webp2png
            store file_id)) /\
  Upload.one_of (Upload.upload_document download_file file_store doc filetype).
Proof.
  unfold Upload.upload_photo, Upload.upload_sticker, Upload.upload_document.
  repeat split.
  - destruct photo_store as [up|]; [|exact I].
    destruct (download_file file_id) as [photo|]; [|exact I].
    destruct (up photo None); exact I.
  - destruct (Upload.get_sticker store file_id); [exact I|].
    destruct photo_store as [up|]; [|exact I].
    destruct (download_file file_id) as [sticker|]; [|exact I].
    destruct (Upload.get_sticker store (md5 sticker)); [exact I|].
    destruct (up (webp2png sticker) (Some "sticker")); exact I.
  - destruct file_store as [up|]; [|exact I].
    destruct (download_file (Upload.file_id doc)) as [data|]; [|exact I].
    destruct (up data _ filetype); exact I.
Qed.

(** X20.  With a Redis sticker store, take a call of [upload_sticker]
    that answers a file id with a URL that is not empty.  When the URL
    came from the entry of the file id or from a fresh upload, the file
    id is in the store afterwards: the next call for it gives the same
    URL and leaves the store as it is, whatever the download, the photo
    store and the upload do.  When the URL was found under the checksum
    of the sticker, the store is left as it was and the file id is not
    recorded: the next call has to download again, and answers with an
    error when the download fails. *)
Theorem upload_sticker_cached
  (download_file : string -> option string)
  (photo_store : option (string -> option string -> option string))
  (md5 webp2png : string -> string)
  (h : string -> option string) (file_id url : string)
  (store' : Upload.StickerStore) :
  Upload.upload_sticker download_file photo_store md5 webp2png
    (Upload.RedisStickerURLStore h) file_id
  = ((Some url, None), store') ->
  url <> "" ->
  ((Upload.get_sticker (Upload.RedisStickerURLStore h) file_id <> None \/
    (forall sticker,
       download_file file_id = Some sticker ->
       Upload.get_sticker (Upload.RedisStickerURLStore h) (md5 sticker) = None)) ->
   Upload.get_sticker store' file_id = Some url /\
   forall download_file' photo_store' md5' webp2png',
     Upload.upload_sticker download_file' photo_store' md5' webp2png'
       store' file_id
     = ((Some url, None), store')) /\
  (Upload.get_sticker (Upload.RedisStickerURLStore h) file_id = None ->
   forall sticker,
     download_file file_id = Some sticker ->
     Upload.get_sticker (Upload.RedisStickerURLStore h) (md5 sticker) <> None ->
     store' = Upload.RedisStickerURLStore h /\
     Upload.get_sticker store' file_id = None /\
     forall photo_store' md5' webp2png',
       Upload.upload_sticker (fun _ => None) photo_store' md5' webp2png'
         store' file_id
       = ((None,
           Some (match photo_store' with
                 | None => "Unable to upload photo"
                 | Some _ => "teleboto failed to download file"
                 end)), store')).
Proof.
  intros H Hne. unfold Upload.upload_sticker in H.
  destruct (Upload.get_sticker (Upload.RedisStickerURLStore h) file_id)
    as [u|] eqn:G1.
  { injection H as Hu Hs. subst u store'. split.
    - intros _. split; [exact G1|]. intros d p m w.
      unfold Upload.upload_sticker. now rewrite G1.
    - discriminate. }
  destruct photo_store as [up|]; [|discriminate].
  destruct (download_file file_id) as [sticker|] eqn:D; [|discriminate].
  destruct (Upload.get_sticker (Upload.RedisStickerURLStore h) (md5 sticker))
    as [u|] eqn:G2.
  { injection H as Hu Hs. subst u store'. split.
    - intros [N|N]; [congruence|].
      rewrite (N sticker eq_refl) in G2. discriminate.
    - intros _ sticker' E _. split; [reflexivity|]. split; [exact G1|].
      intros p m w. unfold Upload.upload_sticker. rewrite G1.
      destruct p; reflexivity. }
  destruct (up (webp2png sticker) (Some "sticker")) as [u|]; [|discriminate].
  remember (Upload.set_sticker
              (Upload.set_sticker (Upload.RedisStickerURLStore h) file_id u)
              (md5 sticker) u) as S eqn:ES.
  injection H as Hu Hs. subst u store'.
  assert (G : Upload.get_sticker S file_id = Some url).
  { subst S. cbn -[String.eqb].
    destruct (String.eqb file_id (md5 sticker)); [|rewrite String.eqb_refl];
      destruct url; try contradiction; reflexivity. }
  clear ES. split.
  - intros _. split; [exact G|]. intros d p m w.
    unfold Upload.upload_sticker. now rewrite G.
  - intros _ sticker' E N. injection E as <-. contradiction.
Qed.

Lemma upload_sticker_cached_witness :
  let net := fun _ : string => Some "webp" in
  let photos := Some (fun (_ : string) (_ : option string) => Some "https://img/1.png") in
  let st := snd (Upload.upload_sticker net photos (fun s => s) (fun s => s)
                   (Upload.RedisStickerURLStore (fun _ => None)) "stk1") in
  Upload.upload_sticker (fun _ => None) None (fun s => s) (fun s => s) st "stk1"
  = ((Some "https://img/1.png", None), st).
Proof.
  intros net photos st.
  destruct (upload_sticker_cached net photos (fun s => s) (fun s => s)
              (fun _ => None) "stk1" "https://img/1.png" st) as [H _].
  - reflexivity.
  - discriminate.
  - apply H. right. intros sticker _. reflexivity.
Defined.

(** ** [photostore.py] *)

Lemma prefix_http (link : string) :
  String.prefix "http:" link = true -> link = "http:" ++ Str.drop 5 link.
Proof.
  intros H. apply String.prefix_correct in H.
  destruct link as [|c1 [|c2 [|c3 [|c4 [|c5 rest]]]]]; try discriminate.
  cbn in H. injection H as E1 E2 E3 E4 E5 _. subst. reflexivity.
Qed.

(** X21.  The link that the Imgur store returns never starts with
    [http:]: a link that starts with [http:] gets [https:] in its place
    and keeps the rest, every other link is returned as it is (one that
    starts with [https:] included), and securing a link twice changes
    nothing more. *)
Theorem imgur_link_secure (link : string) :
  ((exists rest, link = "http:" ++ rest /\ Imgur.secure link = "https:" ++ rest) \/
   (String.prefix "http:" link = false /\ Imgur.secure link = link)) /\
  String.prefix "http:" (Imgur.secure link) = false /\
  Imgur.secure (Imgur.secure link) = Imgur.secure link /\
  (forall rest, Imgur.secure ("http:" ++ rest) = "https:" ++ rest) /\
  (forall rest, Imgur.secure ("https:" ++ rest) = "https:" ++ rest).
Proof.
  assert (S : String.prefix "http:" (Imgur.secure link) = false).
  { unfold Imgur.secure. destruct (String.prefix "http:" link) eqn:E;
      [reflexivity | exact E]. }
  split.
  - unfold Imgur.secure. destruct (String.prefix "http:" link) eqn:E.
    + left. exists (Str.drop 5 link). split; [now apply prefix_http | reflexivity].
    + right. split; reflexivity.
  - split; [exact S|]. split; [|split; intros rest; destruct rest; reflexivity].
    unfold Imgur.secure at 1. now rewrite S.
Qed.
